(** * vllm-cpu: the CPU feature probe and package recommendation

    A shallow embedding of [cpu_detect/vllm_cpu_detect.py] (class
    [CPUDetector] and [main]) and the properties its specification states.

    Modelling choices.
    - Text is a [string] of 8-bit characters.  [Str.lower] lowers the ASCII
      letters and leaves every other character alone, which is what Python's
      [str.lower] does on ASCII text such as /proc/cpuinfo and the output of
      lscpu and sysctl.
    - [features] is a Python [Dict[str, bool]]: a [gmap string bool].  The
      truth value of a dict is its non-emptiness, [d.get(k)] is [d !! k].
    - The host is read through [platform.machine()], [platform.system()],
      [platform.processor()], [open("/proc/cpuinfo").read()] and
      [subprocess.run] of lscpu and of sysctl.  Their outcomes are the fields
      of [Host]; an outcome is a value or a raised exception.
    - Methods run in a reader/state/exception monad [M]: the reader is the
      [Host], the state is the detector object [self].
    - [print] writes to standard output, which is not part of the state of
      the model; the text of the report is given apart, by [report].  A text
      of ASCII characters is always written; for any other text the host
      says whether the encoding of standard output has it, and [print]
      raises [UnicodeEncodeError] when it has not.  A stream that is closed
      or broken is outside the model.  The notices that [detect] prints are
      left out: they are ASCII as long as the name of the operating system
      is.
    - [Str.strip] takes away the ASCII white space, which is what Python's
      [str.strip] does on ASCII text.
*)

From Stdlib Require Import ZArith Ascii.
From stdpp Require Import gmap strings list fin_maps sorting.

Local Open Scope Z_scope.

(** ** Python strings *)

Module Str.

(** [c.lower()] on one character: 'A'..'Z' go to 'a'..'z'. *)
Definition lower_char (c : ascii) : ascii :=
  let n := N_of_ascii c in
  if ((65 <=? n) && (n <=? 90))%N then ascii_of_N (n + 32) else c.

(** [s.lower()] *)
Fixpoint lower (s : string) : string :=
  match s with
  | EmptyString => EmptyString
  | String c t => String (lower_char c) (lower t)
  end.

(** [s.startswith(p)] *)
Fixpoint startswith (p s : string) : bool :=
  match p, s with
  | EmptyString, _ => true
  | String a p', String b s' => bool_decide (a = b) && startswith p' s'
  | String _ _, EmptyString => false
  end.

(** [sub in s]: [sub] starts at some position of [s]. *)
Fixpoint contains (sub s : string) : bool :=
  startswith sub s ||
  match s with
  | EmptyString => false
  | String _ t => contains sub t
  end.

(** [c.isspace()] for an ASCII character: tab, line feed, vertical tab, form
    feed, carriage return, the four separators 28..31 and the space. *)
Definition isspace (c : ascii) : bool :=
  let n := N_of_ascii c in
  ((9 <=? n) && (n <=? 13) || (28 <=? n) && (n <=? 32))%N.

(** [s.lstrip()] *)
Fixpoint lstrip (s : string) : string :=
  match s with
  | EmptyString => EmptyString
  | String c t => if isspace c then lstrip t else s
  end.

(** [s.strip()] *)
Definition strip (s : string) : string :=
  String.rev (lstrip (String.rev (lstrip s))).

(** [s.split(sep)] for a separator of one character: the fields between the
    separators, always at least one. *)
Fixpoint split (sep : ascii) (s : string) : list string :=
  match s with
  | EmptyString => [EmptyString]
  | String c t =>
      if bool_decide (c = sep) then EmptyString :: split sep t
      else match split sep t with
           | f :: fs => String c f :: fs
           | [] => [String c EmptyString]
           end
  end.

(** The lines a text-mode file yields when iterated over, each with its line
    feed when it has one. *)
Fixpoint readlines (s : string) : list string :=
  match s with
  | EmptyString => []
  | String c t =>
      if bool_decide (c = "010"%char) then String c EmptyString :: readlines t
      else match readlines t with
           | l :: ls => String c l :: ls
           | [] => [String c EmptyString]
           end
  end.

(** [s.isascii()] *)
Fixpoint isascii (s : string) : bool :=
  match s with
  | EmptyString => true
  | String c t => (N_of_ascii c <? 128)%N && isascii t
  end.

End Str.

(** [sub in s], with the operands in Python's order. *)
Notation "sub 'in_str' s" := (Str.contains sub s) (at level 70, no associativity).

(** ** The host and the detector object *)

(** The exceptions the calls of this program can raise.  [PermissionError]
    stands for the [OSError]s that no handler of the program names. *)
Inductive exn :=
  FileNotFoundError | TimeoutExpired | PermissionError | IndexError
| UnicodeEncodeError.

Global Instance exn_eq_dec : EqDecision exn.
Proof. solve_decision. Defined.

(** What a call comes back with. *)
Inductive outcome (A : Type) :=
| Returned (a : A)
| Raised (e : exn).
Arguments Returned {A} a.
Arguments Raised {A} e.

(** [subprocess.CompletedProcess], with the two attributes the program reads. *)
Record CompletedProcess := { returncode : Z; stdout : string }.

(** Everything the program asks the machine it runs on. *)
Record Host := {
  platform_machine : string;                 (* platform.machine() *)
  platform_system : string;                  (* platform.system() *)
  platform_processor : string;               (* platform.processor() *)
  proc_cpuinfo : outcome string;             (* open("/proc/cpuinfo", "r").read() *)
  lscpu : outcome CompletedProcess;          (* subprocess.run(["lscpu"], ..., timeout=5) *)
  sysctl : outcome CompletedProcess;         (* subprocess.run(["sysctl", "-a"], ..., timeout=5) *)
  stdout_encodes : string → bool             (* can sys.stdout encode this text, which is not ASCII *)
}.

(** The attributes of a [CPUDetector]. *)
Record CPUDetector := {
  machine : string;
  system : string;
  features : gmap string bool
}.

(** [CPUDetector.__init__] *)
Definition __init__ (h : Host) : CPUDetector :=
  {| machine := platform_machine h; system := platform_system h; features := ∅ |}.

(** ** The monad of methods: reads the host, updates [self], may raise.
    The state that a computation leaves behind survives a raise, as the
    attributes of a Python object do. *)
Definition M (A : Type) : Type := Host → CPUDetector → CPUDetector * outcome A.

Definition ret {A} (a : A) : M A := λ _ self, (self, Returned a).

Definition raise {A} (e : exn) : M A := λ _ self, (self, Raised e).

Definition bind {A B} (m : M A) (k : A → M B) : M B :=
  λ h self,
    match m h self with
    | (self', Returned a) => k a h self'
    | (self', Raised e) => (self', Raised e)
    end.

Notation "'let*' x ':=' m 'in' k" := (bind m (λ x, k))
  (at level 10, x name, m at level 100, k at level 200).
Notation "m ';;' k" := (bind m (λ _, k))
  (at level 100, k at level 200, right associativity).

(** [try: body except (e1, ..., en): handler] *)
Definition try_except {A} (body : M A) (caught : list exn) (handler : M A) : M A :=
  λ h self,
    match body h self with
    | (self', Raised e) =>
        if bool_decide (e ∈ caught) then handler h self' else (self', Raised e)
    | r => r
    end.

Definition get_self : M CPUDetector := λ _ self, (self, Returned self).

(** [self] with [features] replaced. *)
Definition with_features (self : CPUDetector) (fs : gmap string bool) : CPUDetector :=
  {| machine := machine self; system := system self; features := fs |}.

(** [self.features = fs] *)
Definition set_features (fs : gmap string bool) : M unit :=
  λ _ self, (with_features self fs, Returned tt).

(** A call whose outcome the host decides. *)
Definition call {A} (f : Host → outcome A) : M A := λ h self, (self, f h).

(** Standard output takes the text: it is ASCII, or its encoding has it. *)
Definition printable (h : Host) (s : string) : bool :=
  Str.isascii s || stdout_encodes h s.

(** [print(s)] *)
Definition print (s : string) : M unit :=
  λ h self,
    (self, if printable h s then Returned tt else Raised UnicodeEncodeError).

(** [for x in l: body] *)
Fixpoint for_each {A} (l : list A) (body : A → M unit) : M unit :=
  match l with
  | [] => ret tt
  | x :: rest => body x;; for_each rest body
  end.

(** ** Dictionaries of flags *)

(** The truth value of [d.get(k)]: [None] and [False] are false. *)
Definition truthy (o : option bool) : bool :=
  match o with
  | Some true => true
  | _ => false
  end.

(** [if c: d[k] = True] *)
Definition set_if (c : bool) (k : string) (d : gmap string bool) : gmap string bool :=
  if c then <[k := true]> d else d.

(** ** [CPUDetector._detect_linux] *)

(** The six entries [_detect_linux] starts from. *)
Definition linux_flags : gmap string bool :=
  <["amx_int8" := false]> (<["amx_tile" := false]> (<["amx_bf16" := false]>
  (<["avx512_bf16" := false]> (<["avx512_vnni" := false]> (<["avx512f" := false]> ∅))))).

(** The six [if]s on the lowered text of /proc/cpuinfo. *)
Definition scan_cpuinfo (cpuinfo : string) (features : gmap string bool) : gmap string bool :=
  let features := set_if ("avx512f" in_str cpuinfo) "avx512f" features in
  let features :=
    set_if (("avx512_vnni" in_str cpuinfo) || ("avx512vnni" in_str cpuinfo))
           "avx512_vnni" features in
  let features :=
    set_if (("avx512_bf16" in_str cpuinfo) || ("avx512bf16" in_str cpuinfo))
           "avx512_bf16" features in
  let features := set_if ("amx_bf16" in_str cpuinfo) "amx_bf16" features in
  let features := set_if ("amx_tile" in_str cpuinfo) "amx_tile" features in
  let features := set_if ("amx_int8" in_str cpuinfo) "amx_int8" features in
  features.

(** The four [if]s on the lowered output of lscpu. *)
Definition scan_lscpu (lscpu_output : string) (features : gmap string bool) : gmap string bool :=
  let features := set_if ("avx512f" in_str lscpu_output) "avx512f" features in
  let features :=
    set_if (("avx512_vnni" in_str lscpu_output) || ("avx512vnni" in_str lscpu_output))
           "avx512_vnni" features in
  let features :=
    set_if (("avx512_bf16" in_str lscpu_output) || ("avx512bf16" in_str lscpu_output))
           "avx512_bf16" features in
  let features := set_if ("amx_bf16" in_str lscpu_output) "amx_bf16" features in
  features.

Definition _detect_linux : M (gmap string bool) :=
  let features := linux_flags in
  let* features :=
    try_except
      (let* text := call proc_cpuinfo in
       let cpuinfo := Str.lower text in
       ret (scan_cpuinfo cpuinfo features))
      [FileNotFoundError]
      (ret features) in
  let* features :=
    try_except
      (let* result := call lscpu in
       if bool_decide (returncode result = 0)
       then ret (scan_lscpu (Str.lower (stdout result)) features)
       else ret features)
      [TimeoutExpired; FileNotFoundError]
      (ret features) in
  set_features features;;
  ret features.

(** ** [CPUDetector._detect_macos] and [CPUDetector._detect_windows] *)

(** The four entries the other two probes start from. *)
Definition base_flags : gmap string bool :=
  <["amx_bf16" := false]> (<["avx512_bf16" := false]>
  (<["avx512_vnni" := false]> (<["avx512f" := false]> ∅))).

Definition _detect_macos : M (gmap string bool) :=
  let features := base_flags in
  let* features :=
    try_except
      (let* result := call sysctl in
       if bool_decide (returncode result = 0)
       then
         let sysctl_output := Str.lower (stdout result) in
         ret (set_if ("avx512" in_str sysctl_output) "avx512f" features)
       else ret features)
      [TimeoutExpired; FileNotFoundError]
      (ret features) in
  set_features features;;
  ret features.

Definition _detect_windows : M (gmap string bool) :=
  let features := base_flags in
  set_features features;;
  ret features.

(** ** [CPUDetector.detect] *)
Definition detect : M (gmap string bool) :=
  let* self := get_self in
  if bool_decide (system self = "Linux") then _detect_linux
  else if bool_decide (system self = "Darwin") then _detect_macos
  else if bool_decide (system self = "Windows") then _detect_windows
  else ret ∅.

(** ** [CPUDetector.recommend_package] *)

(** The tests made when [self.machine == "x86_64"]: the package of the first
    test that holds, [None] when control falls out of the [if] block. *)
Definition x86_64_tiers (features : gmap string bool) : option string :=
  if truthy (features !! "amx_bf16")
     && truthy (features !! "avx512_bf16")
     && truthy (features !! "avx512_vnni")
  then Some "vllm-cpu-amxbf16"
  else if truthy (features !! "avx512_bf16") && truthy (features !! "avx512_vnni")
  then Some "vllm-cpu-avx512bf16"
  else if truthy (features !! "avx512_vnni")
  then Some "vllm-cpu-avx512vnni"
  else if truthy (features !! "avx512f")
  then Some "vllm-cpu-avx512"
  else None.

Definition recommend_package (self : CPUDetector) : string :=
  if bool_decide (machine self ∈ ["aarch64"; "arm64"]) then "vllm-cpu"
  else
    match (if bool_decide (machine self = "x86_64")
           then x86_64_tiers (features self) else None) with
    | Some package => package
    | None => "vllm-cpu"
    end.

(** ** [CPUDetector.get_cpu_info] *)

(** The body of the [for] loop over the lines of /proc/cpuinfo: the first line
    that starts with "model name" decides, [line.split(":")[1]] raises
    [IndexError] when that line has no colon. *)
Fixpoint model_name (lines : list string) : M (option string) :=
  match lines with
  | [] => ret None
  | line :: rest =>
      if Str.startswith "model name" line then
        match Str.split ":" line !! 1%nat with
        | Some field => ret (Some (Str.strip field))
        | None => raise IndexError
        end
      else model_name rest
  end.

Definition get_cpu_info : M string :=
  let* self := get_self in
  let* found :=
    (if bool_decide (system self = "Linux") then
       try_except
         (let* text := call proc_cpuinfo in model_name (Str.readlines text))
         [FileNotFoundError]
         (ret None)
     else ret None) in
  match found with
  | Some name => ret name
  | None =>
      let* processor := call (λ h, Returned (platform_processor h)) in
      ret (if bool_decide (processor = "") then "Unknown CPU" else processor)
  end.

(** The list [packages] of [print_report]: every package with its
    description. *)
Definition packages : list (string * string) :=
  [ ("vllm-cpu", "Base package (no AVX512, supports ARM64 & x86_64)");
    ("vllm-cpu-avx512", "AVX512 optimized (Intel Skylake-X and newer)");
    ("vllm-cpu-avx512vnni", "AVX512 + VNNI (Intel Cascade Lake and newer)");
    ("vllm-cpu-avx512bf16", "AVX512 + VNNI + BF16 (Intel Cooper Lake and newer)");
    ("vllm-cpu-amxbf16",
     "AVX512 + VNNI + BF16 + AMX (Intel Sapphire Rapids and newer)") ].

(** The five package identifiers of the catalog. *)
Definition package_ids : list string := packages.*1.

(** ** The text of the report *)

Module Fmt.

(** [c.upper()] on one character: 'a'..'z' go to 'A'..'Z'. *)
Definition upper_char (c : ascii) : ascii :=
  let n := N_of_ascii c in
  if ((97 <=? n) && (n <=? 122))%N then ascii_of_N (n - 32) else c.

(** [s.upper()] *)
Fixpoint upper (s : string) : string :=
  match s with
  | EmptyString => EmptyString
  | String c t => String (upper_char c) (upper t)
  end.

(** [c * n] for a string [c] of one character. *)
Fixpoint repeat (c : ascii) (n : nat) : string :=
  match n with
  | O => EmptyString
  | S n' => String c (repeat c n')
  end.

(** The format [{s:<width}]: spaces on the right up to [width], nothing cut. *)
Definition ljust (s : string) (width : nat) : string :=
  s +:+ repeat " " (width - String.length s).

End Fmt.

(** The three marks of the report, byte for byte as the literals stand in the
    source file. *)
Definition MARK_SUPPORTED : string :=
  String.string_of_list_ascii ["195"; "162"; "197"; "147"; "226"; "128"; "156"]%char.

Definition MARK_NOT_SUPPORTED : string :=
  String.string_of_list_ascii ["195"; "162"; "197"; "147"; "226"; "128"; "148"]%char.

Definition MARK_CHOSEN : string :=
  String.string_of_list_ascii
    ["195"; "176"; "197"; "184"; "226"; "128"; "152"; "226"; "128"; "176"]%char.

(** [sorted(self.features.items())]: the keys of a dict are distinct, so the
    order of the pairs is the order of their keys. *)
Definition item_le (a b : string * bool) : Prop := String.le a.1 b.1.

Global Instance item_le_dec : RelDecision item_le.
Proof. intros a b. unfold item_le. apply _. Defined.

Definition sorted_items (d : gmap string bool) : list (string * bool) :=
  merge_sort item_le (map_to_list d).

(** One line of the table of features. *)
Definition feature_row (item : string * bool) : string :=
  let '(feature, supported) := item in
  let status := if supported then MARK_SUPPORTED else MARK_NOT_SUPPORTED in
  "  " +:+ status +:+ " " +:+ Fmt.ljust (Fmt.upper feature) 20 +:+ " "
  +:+ (if supported then "Supported" else "Not Supported").

(** The lines under "Detected CPU Features:". *)
Definition feature_rows (d : gmap string bool) : list string :=
  if bool_decide (d = ∅) then ["  (No features detected)"]
  else feature_row <$> sorted_items d.

(** One line of the list of all packages. *)
Definition package_row (package : string) (entry : string * string) : string :=
  let '(pkg, desc) := entry in
  let marker := if bool_decide (pkg = package) then MARK_CHOSEN else "  " in
  "  " +:+ marker +:+ " " +:+ Fmt.ljust pkg 25 +:+ " - " +:+ desc.

(** The lines under "All Available Packages:". *)
Definition package_rows (package : string) : list string :=
  package_row package <$> packages.

(** ** [CPUDetector.print_report] *)
Definition print_report : M unit :=
  let* self := get_self in
  print (Fmt.repeat "=" 70);;
  print "vLLM CPU Package Detector";;
  print (Fmt.repeat "=" 70);;
  print "";;
  print ("System:       " +:+ system self);;
  print ("Architecture: " +:+ machine self);;
  let* cpu_model := get_cpu_info in
  print ("CPU Model:    " +:+ cpu_model);;
  print "";;
  print "Detected CPU Features:";;
  print (Fmt.repeat "-" 70);;
  let* self := get_self in
  (if bool_decide (features self = ∅) then print "  (No features detected)"
   else for_each (sorted_items (features self))
          (λ item, print (feature_row item)));;
  print "";;
  print "Recommended Package:";;
  print (Fmt.repeat "-" 70);;
  let package := recommend_package self in
  print ("  " +:+ package);;
  print "";;
  print "Installation Command:";;
  print (Fmt.repeat "-" 70);;
  print ("  pip install " +:+ package);;
  print "";;
  print "All Available Packages:";;
  print (Fmt.repeat "-" 70);;
  for_each packages (λ entry, print (package_row package entry));;
  print "";;
  print (Fmt.repeat "=" 70).

(** ** [main] *)

(** The first line of the warning, byte for byte as the literal stands in the
    source file, and the second. *)
Definition WARNING_1 : string :=
  String.string_of_list_ascii
    ["010"; "195"; "162"; "197"; "161"; "194"; "160"; "195"; "175"; "194"; "184"]%char
  +:+ "  Warning: Could not detect CPU features reliably".

Definition WARNING_2 : string := "   Defaulting to base package (vllm-cpu)".

(** The statements of [main] after the detector is built. *)
Definition main_body : M Z :=
  detect;;
  print_report;;
  let* detector := get_self in
  if bool_decide (features detector ≠ ∅)
     || bool_decide (machine detector ∈ ["aarch64"; "arm64"])
  then ret 0
  else
    print WARNING_1;;
    print WARNING_2;;
    ret 1.

(** [main()]: the detector as the run leaves it, and what [main] comes back
    with. *)
Definition main (h : Host) : CPUDetector * outcome Z :=
  main_body h (__init__ h).

(** [sys.exit(main())]: the status is the integer [main] returns; an exception
    that nobody catches ends the interpreter with status 1. *)
Definition exit_status (h : Host) : Z :=
  match main h with
  | (_, Returned code) => code
  | (_, Raised _) => 1
  end.

(** ** The specification's words, for comparison with the code *)

(** A catalog entry: a predicate on the flags and a package identifier. *)
Definition VariantTier : Type := (gmap string bool → bool) * string.

(** A flag of a FeatureSet, false when absent. *)
Definition flag (fs : gmap string bool) (k : string) : bool :=
  truthy (fs !! k).

(** The ordered catalog for x86_64, most demanding first. *)
Definition catalog : list VariantTier :=
  [ (λ fs, flag fs "amx_bf16" && flag fs "avx512_bf16" && flag fs "avx512_vnni",
     "vllm-cpu-amxbf16");
    (λ fs, flag fs "avx512_bf16" && flag fs "avx512_vnni", "vllm-cpu-avx512bf16");
    (λ fs, flag fs "avx512_vnni", "vllm-cpu-avx512vnni");
    (λ fs, flag fs "avx512f", "vllm-cpu-avx512") ].

(** Top-down evaluation, first match wins, [fallback] when none matches. *)
Fixpoint first_match (tiers : list VariantTier) (fallback : string)
    (fs : gmap string bool) : string :=
  match tiers with
  | [] => fallback
  | (requires, package) :: rest =>
      if requires fs then package else first_match rest fallback fs
  end.

(** Union of two FeatureSets, flag-wise with logical OR. *)
Definition merge (f g : gmap string bool) : gmap string bool :=
  union_with (λ a b, Some (a || b)) f g.

(** ** Notions that the statements below use *)

(** [sub] occurs in [s]. *)
Definition substring (sub s : string) : Prop :=
  ∃ pre suf, s = pre +:+ sub +:+ suf.

(** The flags of the Linux probe, and the four that the recommendation reads. *)
Definition linux_flag_names : list string :=
  ["avx512f"; "avx512_vnni"; "avx512_bf16"; "amx_bf16"; "amx_tile"; "amx_int8"].

Definition tier_flag_names : list string :=
  ["avx512f"; "avx512_vnni"; "avx512_bf16"; "amx_bf16"].

(** The spellings that signal a flag in the Linux probe. *)
Definition accepted_tokens (k : string) : list string :=
  if bool_decide (k = "avx512_vnni") then ["avx512_vnni"; "avx512vnni"]
  else if bool_decide (k = "avx512_bf16") then ["avx512_bf16"; "avx512bf16"]
  else [k].

(** A lowered text reports flag [k]: it contains one of the spellings. *)
Definition reports (text : string) (k : string) : bool :=
  existsb (λ token, token in_str text) (accepted_tokens k).

(** What the descriptor text contributes: nothing when it could not be read. *)
Definition cpuinfo_reports (r : outcome string) (k : string) : bool :=
  match r with
  | Returned text => reports (Str.lower text) k
  | Raised _ => false
  end.

(** What a command contributes: nothing unless it ran and exited with 0. *)
Definition command_reports (r : outcome CompletedProcess) (k : string) : bool :=
  match r with
  | Returned result =>
      bool_decide (returncode result = 0) && reports (Str.lower (stdout result)) k
  | Raised _ => false
  end.

(** The call came back with a value. *)
Definition is_returned {A} (r : outcome A) : bool :=
  match r with
  | Returned _ => true
  | Raised _ => false
  end.

(** The call comes back, or raises what the handler around it names. *)
Definition handled {A} (caught : list exn) (r : outcome A) : bool :=
  match r with
  | Returned _ => true
  | Raised e => bool_decide (e ∈ caught)
  end.

(** The first line that starts with "model name", if there is one, has a
    colon. *)
Fixpoint model_name_ok (lines : list string) : bool :=
  match lines with
  | [] => true
  | line :: rest =>
      if Str.startswith "model name" line then ":" in_str line
      else model_name_ok rest
  end.

(** The hosts whose files and commands raise only what a handler names: on
    Linux /proc/cpuinfo is read or missing, lscpu runs, is missing or times
    out, and the model name line is well formed; on Darwin sysctl runs, is
    missing or times out. *)
Definition sources_ok (h : Host) : bool :=
  if bool_decide (platform_system h = "Linux") then
    handled [FileNotFoundError] (proc_cpuinfo h)
    && handled [TimeoutExpired; FileNotFoundError] (lscpu h)
    && match proc_cpuinfo h with
       | Returned text => model_name_ok (Str.readlines text)
       | Raised _ => true
       end
  else if bool_decide (platform_system h = "Darwin") then
    handled [TimeoutExpired; FileNotFoundError] (sysctl h)
  else true.

(** ** Hosts and detectors to run the program on *)

Definition completed (code : Z) (out : string) : outcome CompletedProcess :=
  Returned {| returncode := code; stdout := out |}.

(** Linux on x86_64, a processor without AVX512, no lscpu installed. *)
Definition host_linux_plain : Host :=
  {| platform_machine := "x86_64"; platform_system := "Linux";
     platform_processor := "x86_64";
     proc_cpuinfo := Returned "model name : Intel(R) Core(TM) i5-8250U
flags : fpu vme sse sse2 avx avx2
";
     lscpu := Raised FileNotFoundError;
     sysctl := Raised FileNotFoundError;
     stdout_encodes := λ _, true |}.

(** Linux without /proc/cpuinfo and without lscpu. *)
Definition host_linux_blind : Host :=
  {| platform_machine := "x86_64"; platform_system := "Linux";
     platform_processor := "";
     proc_cpuinfo := Raised FileNotFoundError;
     lscpu := Raised FileNotFoundError;
     sysctl := Raised FileNotFoundError;
     stdout_encodes := λ _, true |}.

(** Linux, /proc/cpuinfo in capitals with the joined spelling of VNNI, lscpu
    timing out. *)
Definition host_linux_vnni : Host :=
  {| platform_machine := "x86_64"; platform_system := "Linux";
     platform_processor := "";
     proc_cpuinfo := Returned "Flags : FPU AVX512F AVX512VNNI AMX_TILE";
     lscpu := Raised TimeoutExpired;
     sysctl := Raised FileNotFoundError;
     stdout_encodes := λ _, true |}.

(** Linux, avx512f in /proc/cpuinfo only and avx512_vnni in lscpu only. *)
Definition host_linux_two_sources : Host :=
  {| platform_machine := "x86_64"; platform_system := "Linux";
     platform_processor := "";
     proc_cpuinfo := Returned "flags : fpu avx512f";
     lscpu := completed 0 "Flags: fpu avx512_vnni";
     sysctl := Raised FileNotFoundError;
     stdout_encodes := λ _, true |}.

(** Linux, amx_tile and amx_int8 in the output of lscpu only. *)
Definition host_lscpu_amx : Host :=
  {| platform_machine := "x86_64"; platform_system := "Linux";
     platform_processor := "";
     proc_cpuinfo := Returned "flags : fpu sse2";
     lscpu := completed 0 "Flags: fpu amx_tile amx_int8";
     sysctl := Raised FileNotFoundError;
     stdout_encodes := λ _, true |}.

(** Linux, lscpu printing avx512f and exiting with status 1. *)
Definition host_lscpu_failed : Host :=
  {| platform_machine := "x86_64"; platform_system := "Linux";
     platform_processor := "";
     proc_cpuinfo := Returned "flags : fpu sse2";
     lscpu := completed 1 "Flags: fpu avx512f";
     sysctl := Raised FileNotFoundError;
     stdout_encodes := λ _, true |}.

(** macOS, sysctl listing AVX512 with VNNI and exiting with status 0. *)
Definition host_macos_avx512 : Host :=
  {| platform_machine := "x86_64"; platform_system := "Darwin";
     platform_processor := "i386";
     proc_cpuinfo := Raised FileNotFoundError;
     lscpu := Raised FileNotFoundError;
     sysctl := completed 0 "hw.optional.avx512f: 1
hw.optional.avx512vnni: 1
";
     stdout_encodes := λ _, true |}.

(** macOS, sysctl printing the same and exiting with status 1. *)
Definition host_macos_sysctl_failed : Host :=
  {| platform_machine := "x86_64"; platform_system := "Darwin";
     platform_processor := "i386";
     proc_cpuinfo := Raised FileNotFoundError;
     lscpu := Raised FileNotFoundError;
     sysctl := completed 1 "hw.optional.avx512f: 1
hw.optional.avx512vnni: 1
";
     stdout_encodes := λ _, true |}.

(** Linux on arm64 where /proc/cpuinfo may not be opened. *)
Definition host_linux_denied : Host :=
  {| platform_machine := "aarch64"; platform_system := "Linux";
     platform_processor := "aarch64";
     proc_cpuinfo := Raised PermissionError;
     lscpu := completed 0 "Architecture: aarch64";
     sysctl := Raised FileNotFoundError;
     stdout_encodes := λ _, true |}.

(** Linux with a model name line that has no colon. *)
Definition host_linux_bad_model_name : Host :=
  {| platform_machine := "x86_64"; platform_system := "Linux";
     platform_processor := "";
     proc_cpuinfo := Returned "model name
flags : fpu avx512f
";
     lscpu := Raised FileNotFoundError;
     sysctl := Raised FileNotFoundError;
     stdout_encodes := λ _, true |}.

(** An operating system the detector does not know, on x86_64. *)
Definition host_freebsd : Host :=
  {| platform_machine := "x86_64"; platform_system := "FreeBSD";
     platform_processor := "amd64";
     proc_cpuinfo := Raised FileNotFoundError;
     lscpu := Raised FileNotFoundError;
     sysctl := Raised FileNotFoundError;
     stdout_encodes := λ _, true |}.

(** A detector on x86_64 with the four tier flags set, and one with avx512f
    alone. *)
Definition detector_all_tiers : CPUDetector :=
  {| machine := "x86_64"; system := "Linux";
     features := <["amx_bf16" := true]> (<["avx512_bf16" := true]>
       (<["avx512_vnni" := true]> (<["avx512f" := true]> ∅))) |}.

Definition detector_avx512f_only : CPUDetector :=
  {| machine := "x86_64"; system := "Linux"; features := <["avx512f" := true]> ∅ |}.

(** ** The report as a list of lines *)

(** What [print_report] prints, one string for each call of [print], when
    [get_cpu_info] has returned [cpu_model]. *)
Definition report (self : CPUDetector) (cpu_model : string) : list string :=
  let package := recommend_package self in
  [ Fmt.repeat "=" 70;
    "vLLM CPU Package Detector";
    Fmt.repeat "=" 70;
    "";
    "System:       " +:+ system self;
    "Architecture: " +:+ machine self;
    "CPU Model:    " +:+ cpu_model;
    "";
    "Detected CPU Features:";
    Fmt.repeat "-" 70 ]
  ++ feature_rows (features self)
  ++ [ "";
       "Recommended Package:";
       Fmt.repeat "-" 70;
       "  " +:+ package;
       "";
       "Installation Command:";
       Fmt.repeat "-" 70;
       "  pip install " +:+ package;
       "";
       "All Available Packages:";
       Fmt.repeat "-" 70 ]
  ++ package_rows package
  ++ [ ""; Fmt.repeat "=" 70 ].

(** Everything a run prints when nothing stops it: the report on the detector
    that [detect] leaves, and the two lines of the warning when the status
    is 1. *)
Definition main_output (h : Host) : list string :=
  let detector := (detect h (__init__ h)).1 in
  let cpu_model := match (get_cpu_info h detector).2 with
                   | Returned name => name
                   | Raised _ => EmptyString
                   end in
  report detector cpu_model
  ++ (if bool_decide (features detector ≠ ∅)
         || bool_decide (machine detector ∈ ["aarch64"; "arm64"])
      then [] else [WARNING_1; WARNING_2]).

(** The hosts on which a run meets no exception that goes uncaught: the
    sources are in order and standard output takes every line. *)
Definition completes (h : Host) : bool :=
  sources_ok h && forallb (printable h) (main_output h).

(** The number of times a character occurs in a text. *)
Fixpoint count_char (c : ascii) (s : string) : nat :=
  match s with
  | EmptyString => 0
  | String x t => (if bool_decide (x = c) then 1 else 0) + count_char c t
  end.

(** [s] ends with [suffix]; [s] starts with [prefix]. *)
Definition ends_with (suffix s : string) : Prop := ∃ pre, s = pre +:+ suffix.

Definition starts_with (prefix s : string) : Prop := ∃ suf, s = prefix +:+ suf.

(** The position of a package in [packages], which lists them from the base
    package up to the most demanding one. *)
Definition tier_of (package : string) : nat :=
  default 0%nat (fst <$> list_find (λ id, id = package) package_ids).

(** Every flag that is true in [fs1] is true in [fs2]. *)
Definition flags_included (fs1 fs2 : gmap string bool) : Prop :=
  ∀ k, flag fs1 k = true → flag fs2 k = true.

(** A flag as the two sources of the Linux probe report it. *)
Definition linux_reports (h : Host) (k : string) : bool :=
  cpuinfo_reports (proc_cpuinfo h) k || command_reports (lscpu h) k.


(** [platform.processor() or "Unknown CPU"] *)
Definition processor_or_unknown (h : Host) : string :=
  if bool_decide (platform_processor h = "") then "Unknown CPU"
  else platform_processor h.

(** More hosts and detectors. *)

(** Linux on x86_64 with avx512_vnni in /proc/cpuinfo and avx512_bf16 and
    amx_bf16 in the output of lscpu. *)
Definition host_linux_split : Host :=
  {| platform_machine := "x86_64"; platform_system := "Linux";
     platform_processor := "";
     proc_cpuinfo := Returned "model name	: Intel(R) Xeon(R) Platinum 8480+
flags		: fpu avx512f avx512_vnni
";
     lscpu := completed 0 "Flags: fpu avx512_bf16 amx_bf16";
     sysctl := Raised FileNotFoundError;
     stdout_encodes := λ _, true |}.

(** Windows on a machine that calls itself x86_64. *)
Definition host_windows : Host :=
  {| platform_machine := "x86_64"; platform_system := "Windows";
     platform_processor := "Intel64 Family 6 Model 143 Stepping 8, GenuineIntel";
     proc_cpuinfo := Raised FileNotFoundError;
     lscpu := Raised FileNotFoundError;
     sysctl := Raised FileNotFoundError;
     stdout_encodes := λ _, true |}.

(** A detector on x86_64 with avx512_vnni alone. *)
Definition detector_vnni_only : CPUDetector :=
  {| machine := "x86_64"; system := "Linux"; features := <["avx512_vnni" := true]> ∅ |}.

(** Linux on x86_64 with AVX512 and a standard output that encodes ASCII
    only. *)
Definition host_ascii_stdout : Host :=
  {| platform_machine := "x86_64"; platform_system := "Linux";
     platform_processor := "x86_64";
     proc_cpuinfo := Returned "model name : Intel(R) Xeon(R) Gold 6130
flags : fpu avx512f
";
     lscpu := Raised FileNotFoundError;
     sysctl := Raised FileNotFoundError;
     stdout_encodes := λ _, false |}.

(** Linux where /proc/cpuinfo may not be opened and lscpu is not installed. *)
Definition host_linux_unreadable : Host :=
  {| platform_machine := "x86_64"; platform_system := "Linux";
     platform_processor := "x86_64";
     proc_cpuinfo := Raised PermissionError;
     lscpu := Raised FileNotFoundError;
     sysctl := Raised FileNotFoundError;
     stdout_encodes := λ _, true |}.

(** The host with every text it hands out rewritten by [f]. *)
Definition host_with_texts (f : string → string) (h : Host) : Host :=
  let on_run (r : outcome CompletedProcess) :=
    match r with
    | Returned result =>
        Returned {| returncode := returncode result; stdout := f (stdout result) |}
    | Raised e => Raised e
    end in
  {| platform_machine := platform_machine h;
     platform_system := platform_system h;
     platform_processor := platform_processor h;
     proc_cpuinfo := match proc_cpuinfo h with
                     | Returned text => Returned (f text)
                     | Raised e => Raised e
                     end;
     lscpu := on_run (lscpu h);
     sysctl := on_run (sysctl h);
     stdout_encodes := stdout_encodes h |}.

(** ** Words for the text of /proc/cpuinfo *)

(** The line feed as a text. *)
Notation "'LF'" := (String "010"%char EmptyString).

(** The lines of a text: each line runs up to its line feed and keeps it; what
    stands after the last line feed is a line of its own when it is not
    empty. *)
Inductive lines_of : string → list string → Prop :=
| lines_of_nil : lines_of "" []
| lines_of_last body :
    body ≠ "" → ¬ substring LF body → lines_of body [body]
| lines_of_cons body rest ls :
    ¬ substring LF body → lines_of rest ls →
    lines_of (body +:+ LF +:+ rest) ((body +:+ LF) :: ls).





(** ** Words for the table of features *)

(** [a] comes before [b] in the order of strings. *)
Definition key_lt (a b : string) : Prop := String.le a b ∧ a ≠ b.

Global Instance key_lt_dec : RelDecision key_lt.
Proof. intros a b. unfold key_lt. apply _. Defined.

(** The number of keys of [d] that come before [k]. *)
Definition rank (d : gmap string bool) (k : string) : nat :=
  length (filter (λ item : string * bool, key_lt item.1 k) (map_to_list d)).

(** * Facts *)

(** ** Strings *)

Section StrFacts.

Lemma startswith_app (p s : string) :
  Str.startswith p s = true ↔ ∃ suf, s = p +:+ suf.
Proof.
  revert s. induction p as [|a p IH]; intros s; simpl.
  - split; [intros _; by exists s | done].
  - destruct s as [|b s]; simpl.
    + split; [done | intros [suf Hs]; discriminate].
    + rewrite andb_true_iff, bool_decide_eq_true, IH. split.
      * intros [-> [suf ->]]. by exists suf.
      * intros [suf Hs]. injection Hs as -> ->. eauto.
Qed.

(** [contains] is the substring relation. *)
Lemma contains_app (sub s : string) :
  Str.contains sub s = true ↔ ∃ pre suf, s = pre +:+ sub +:+ suf.
Proof.
  induction s as [|c s IH]; simpl.
  - rewrite orb_false_r, startswith_app. split.
    + intros [suf Hs]. by exists "", suf.
    + intros [[|? ?] [suf Hs]]; [by exists suf | discriminate].
  - rewrite orb_true_iff, startswith_app, IH. split.
    + intros [[suf Hs] | (pre & suf & ->)].
      * by exists "", suf.
      * by exists (String c pre), suf.
    + intros [[|c' pre] [suf Hs]].
      * left. by exists suf.
      * right. injection Hs as -> ->. by exists pre, suf.
Qed.

Lemma lower_char_idemp (c : ascii) :
  Str.lower_char (Str.lower_char c) = Str.lower_char c.
Proof. by destruct c as [[] [] [] [] [] [] [] []]. Qed.

Lemma lower_idemp (s : string) : Str.lower (Str.lower s) = Str.lower s.
Proof. induction s as [|c s IH]; simpl; [done|]. by rewrite lower_char_idemp, IH. Qed.

End StrFacts.

Example lower_ex : Str.lower "Flags : AVX512F Avx512_VNNI" = "flags : avx512f avx512_vnni".
Proof. reflexivity. Qed.

Example contains_ex :
  ("avx512f" in_str "flags : fpu avx512f avx2") = true ∧
  ("avx512f" in_str "flags : fpu avx512 f") = false.
Proof. split; reflexivity. Qed.

(** ** Dictionaries of flags *)

Section FlagFacts.

Implicit Types (d f g : gmap string bool) (k j : string) (c : bool).

Lemma set_if_lookup c k d j :
  set_if c k d !! j = if bool_decide (k = j) && c then Some true else d !! j.
Proof.
  unfold set_if. destruct c; rewrite ?andb_false_r, ?andb_true_r; [|done].
  rewrite lookup_insert. by rewrite (decide_bool_decide (k = j)).
Qed.

Lemma set_if_keeps_true c k d j :
  d !! j = Some true → set_if c k d !! j = Some true.
Proof. intros Hj. rewrite set_if_lookup. by destruct (_ && _). Qed.

Lemma set_if_keeps_entry c k d j :
  is_Some (d !! j) → is_Some (set_if c k d !! j).
Proof. intros Hj. rewrite set_if_lookup. by destruct (_ && _). Qed.

Lemma flag_true d k : flag d k = true ↔ d !! k = Some true.
Proof. unfold flag, truthy. destruct (d !! k) as [[]|]; naive_solver. Qed.

End FlagFacts.

(** ** The recommendation *)

Section Recommendation.

Implicit Types (self : CPUDetector) (fs : gmap string bool).

Lemma x86_64_tiers_first_match fs :
  default "vllm-cpu" (x86_64_tiers fs) = first_match catalog "vllm-cpu" fs.
Proof.
  unfold x86_64_tiers, catalog, first_match, flag.
  by repeat (destruct (truthy _); simpl).
Qed.

Lemma recommend_package_arm self :
  machine self ∈ ["aarch64"; "arm64"] → recommend_package self = "vllm-cpu".
Proof. intros Harm. unfold recommend_package. by rewrite bool_decide_eq_true_2. Qed.

Lemma recommend_package_x86_64 self :
  machine self = "x86_64" →
  recommend_package self = default "vllm-cpu" (x86_64_tiers (features self)).
Proof.
  intros Hm. unfold recommend_package. rewrite Hm.
  rewrite bool_decide_eq_false_2, bool_decide_eq_true_2; [done..|].
  rewrite !elem_of_cons, elem_of_nil. by intros [|[|]].
Qed.

Lemma recommend_package_other self :
  machine self ∉ ["aarch64"; "arm64"] → machine self ≠ "x86_64" →
  recommend_package self = "vllm-cpu".
Proof.
  intros Harm Hx. unfold recommend_package.
  by rewrite !bool_decide_eq_false_2.
Qed.

Lemma x86_64_tiers_in_catalog fs :
  default "vllm-cpu" (x86_64_tiers fs) ∈ package_ids.
Proof.
  unfold x86_64_tiers.
  repeat (destruct (truthy _); simpl); unfold package_ids; simpl;
    rewrite !elem_of_cons; tauto.
Qed.

(** The tests read the four tier flags through [get] only. *)
Lemma x86_64_tiers_ext fs1 fs2 :
  (∀ k, k ∈ tier_flag_names → flag fs1 k = flag fs2 k) →
  x86_64_tiers fs1 = x86_64_tiers fs2.
Proof.
  intros Hagree. unfold x86_64_tiers. unfold flag in Hagree.
  rewrite !(Hagree "amx_bf16"), !(Hagree "avx512_bf16"),
    !(Hagree "avx512_vnni"), !(Hagree "avx512f");
    [done | unfold tier_flag_names; rewrite !elem_of_cons; tauto..].
Qed.

End Recommendation.

(** C2.  On x86_64 [recommend_package] is the catalog evaluated top-down with
    the first match winning: vllm-cpu-amxbf16 when amx_bf16, avx512_bf16 and
    avx512_vnni all hold, else vllm-cpu-avx512bf16 when avx512_bf16 and
    avx512_vnni hold, else vllm-cpu-avx512vnni when avx512_vnni holds, else
    vllm-cpu-avx512 when avx512f holds, else vllm-cpu; for every dictionary of
    flags. *)
Theorem recommend_package_x86_64_first_match (self : CPUDetector) :
  machine self = "x86_64" →
  recommend_package self = first_match catalog "vllm-cpu" (features self) ∧
  recommend_package self =
    let fs := features self in
    if flag fs "amx_bf16" && flag fs "avx512_bf16" && flag fs "avx512_vnni"
    then "vllm-cpu-amxbf16"
    else if flag fs "avx512_bf16" && flag fs "avx512_vnni" then "vllm-cpu-avx512bf16"
    else if flag fs "avx512_vnni" then "vllm-cpu-avx512vnni"
    else if flag fs "avx512f" then "vllm-cpu-avx512"
    else "vllm-cpu".
Proof.
  intros Hm. rewrite (recommend_package_x86_64 self Hm). split.
  - apply x86_64_tiers_first_match.
  - unfold x86_64_tiers, flag. simpl.
    by repeat (destruct (truthy _); simpl).
Qed.

(** The two x86_64 scenarios of the specification with a flag set: all four
    tier flags give the top tier, avx512f alone gives the baseline AVX512
    package. *)
Lemma recommend_package_x86_64_first_match_witness :
  recommend_package detector_all_tiers = "vllm-cpu-amxbf16" ∧
  recommend_package detector_avx512f_only = "vllm-cpu-avx512".
Proof.
  split.
  - exact (eq_trans
      (proj2 (recommend_package_x86_64_first_match detector_all_tiers eq_refl)) eq_refl).
  - exact (eq_trans
      (proj2 (recommend_package_x86_64_first_match detector_avx512f_only eq_refl)) eq_refl).
Defined.

(** C3.  On aarch64 and arm64 [recommend_package] returns vllm-cpu, whatever
    the dictionary of flags holds. *)
Theorem recommend_package_arm_is_base (self : CPUDetector) :
  machine self = "aarch64" ∨ machine self = "arm64" →
  recommend_package self = "vllm-cpu".
Proof.
  intros Harm. apply recommend_package_arm. rewrite !elem_of_cons. tauto.
Qed.

Lemma recommend_package_arm_is_base_witness :
  recommend_package
    {| machine := "arm64"; system := "Darwin";
       features := <["amx_bf16" := true]> (<["avx512_bf16" := true]>
         (<["avx512_vnni" := true]> (<["avx512f" := true]> ∅))) |} = "vllm-cpu".
Proof.
  apply recommend_package_arm_is_base. right. reflexivity.
Defined.

(** C4.  For every architecture string and every dictionary of flags
    [recommend_package] returns one of the five package identifiers. *)
Theorem recommend_package_total (architecture sys : string) (fs : gmap string bool) :
  recommend_package {| machine := architecture; system := sys; features := fs |}
    ∈ package_ids ∧
  package_ids = ["vllm-cpu"; "vllm-cpu-avx512"; "vllm-cpu-avx512vnni";
                 "vllm-cpu-avx512bf16"; "vllm-cpu-amxbf16"].
Proof.
  split; [|reflexivity].
  set (self := {| machine := architecture |}).
  destruct (decide (machine self ∈ ["aarch64"; "arm64"])) as [Harm|Harm].
  { rewrite (recommend_package_arm _ Harm). unfold package_ids. simpl.
    rewrite !elem_of_cons. tauto. }
  destruct (decide (machine self = "x86_64")) as [Hx|Hx].
  { rewrite (recommend_package_x86_64 _ Hx). apply x86_64_tiers_in_catalog. }
  rewrite (recommend_package_other _ Harm Hx). unfold package_ids. simpl.
  rewrite !elem_of_cons. tauto.
Qed.

(** C10.  amx_tile and amx_int8 never reach the recommendation: two detectors
    on the same architecture whose dictionaries agree on avx512f, avx512_vnni,
    avx512_bf16 and amx_bf16 get the same package, however the dictionaries
    differ elsewhere. *)
Theorem recommend_package_ignores_amx_tile_int8
    (architecture sys1 sys2 : string) (fs1 fs2 : gmap string bool) :
  (∀ k, k ∈ tier_flag_names → flag fs1 k = flag fs2 k) →
  recommend_package {| machine := architecture; system := sys1; features := fs1 |} =
  recommend_package {| machine := architecture; system := sys2; features := fs2 |}.
Proof.
  intros Hagree. unfold recommend_package. simpl.
  by rewrite (x86_64_tiers_ext fs1 fs2 Hagree).
Qed.

Lemma recommend_package_ignores_amx_tile_int8_witness :
  recommend_package
    {| machine := "x86_64"; system := "Linux";
       features := <["amx_int8" := true]> (<["amx_tile" := true]>
         (<["avx512f" := true]> ∅)) |} =
  recommend_package
    {| machine := "x86_64"; system := "Linux";
       features := <["amx_int8" := false]> (<["amx_tile" := false]>
         (<["avx512f" := true]> ∅)) |}.
Proof.
  apply recommend_package_ignores_amx_tile_int8.
  intros k Hk. unfold tier_flag_names in Hk.
  repeat (apply elem_of_cons in Hk as [-> | Hk]; [reflexivity|]).
  by apply elem_of_nil in Hk.
Defined.

(** ** Merging by flag-wise OR *)

Section MergeFacts.

Implicit Types (f g m : gmap string bool) (k j : string) (c : bool).

Lemma merge_lookup f g j :
  merge f g !! j =
    match f !! j, g !! j with
    | Some a, Some b => Some (a || b)
    | Some a, None => Some a
    | None, o => o
    end.
Proof.
  unfold merge. rewrite lookup_union_with.
  by destruct (f !! j), (g !! j).
Qed.

Lemma merge_idemp f : merge f f = f.
Proof.
  apply map_eq. intros j. rewrite merge_lookup.
  destruct (f !! j) as [a|]; [|done]. by rewrite orb_diag.
Qed.

Lemma merge_comm f g : merge f g = merge g f.
Proof.
  apply map_eq. intros j. rewrite !merge_lookup.
  destruct (f !! j) as [a|], (g !! j) as [b|]; try done.
  by rewrite orb_comm.
Qed.

Lemma merge_assoc f g m : merge (merge f g) m = merge f (merge g m).
Proof.
  apply map_eq. intros j. rewrite !merge_lookup.
  destruct (f !! j) as [a|], (g !! j) as [b|], (m !! j) as [c|]; try done.
  by rewrite orb_assoc.
Qed.

Lemma merge_empty_r f : merge f ∅ = f.
Proof.
  apply map_eq. intros j. rewrite merge_lookup, lookup_empty.
  by destruct (f !! j).
Qed.

(** One [if c: d[k] = True] commutes with a merge on its left. *)
Lemma set_if_merge c k f g : set_if c k (merge f g) = merge f (set_if c k g).
Proof.
  apply map_eq. intros j. rewrite set_if_lookup, !merge_lookup, set_if_lookup.
  destruct (bool_decide (k = j) && c); [|done].
  destruct (f !! j) as [a|]; [|done].
  destruct (g !! j) as [b|]; by rewrite ?orb_true_r.
Qed.

(** Running a scan over a dictionary merges into it what the scan finds. *)
Lemma scan_cpuinfo_merge text f : scan_cpuinfo text f = merge f (scan_cpuinfo text ∅).
Proof.
  unfold scan_cpuinfo. rewrite <- !set_if_merge. by rewrite merge_empty_r.
Qed.

Lemma scan_lscpu_merge text f : scan_lscpu text f = merge f (scan_lscpu text ∅).
Proof.
  unfold scan_lscpu. rewrite <- !set_if_merge. by rewrite merge_empty_r.
Qed.

End MergeFacts.

(** C9.  The flag-wise OR of two dictionaries is idempotent, commutative and
    associative.  The repeated assignments of the probe are such merges, so a
    source applied twice gives what it gives once, and the two sources of the
    Linux probe can be applied in either order. *)
Theorem merge_idempotent_commutative_associative :
  (∀ f, merge f f = f) ∧
  (∀ f g, merge f g = merge g f) ∧
  (∀ f g m, merge (merge f g) m = merge f (merge g m)) ∧
  (∀ text f, scan_cpuinfo text f = merge f (scan_cpuinfo text ∅)) ∧
  (∀ text f, scan_lscpu text f = merge f (scan_lscpu text ∅)) ∧
  (∀ text f, scan_cpuinfo text (scan_cpuinfo text f) = scan_cpuinfo text f) ∧
  (∀ text f, scan_lscpu text (scan_lscpu text f) = scan_lscpu text f) ∧
  (∀ text out f,
     scan_lscpu out (scan_cpuinfo text f) = scan_cpuinfo text (scan_lscpu out f)).
Proof.
  split_and!.
  - apply merge_idemp.
  - apply merge_comm.
  - apply merge_assoc.
  - apply scan_cpuinfo_merge.
  - apply scan_lscpu_merge.
  - intros text f.
    rewrite (scan_cpuinfo_merge text (scan_cpuinfo text f)), (scan_cpuinfo_merge text f).
    by rewrite merge_assoc, merge_idemp.
  - intros text f.
    rewrite (scan_lscpu_merge text (scan_lscpu text f)), (scan_lscpu_merge text f).
    by rewrite merge_assoc, merge_idemp.
  - intros text out f.
    rewrite (scan_lscpu_merge out (scan_cpuinfo text f)), (scan_cpuinfo_merge text f).
    rewrite (scan_cpuinfo_merge text (scan_lscpu out f)), (scan_lscpu_merge out f).
    rewrite !merge_assoc. f_equal. apply merge_comm.
Qed.

(** ** The probes *)

Section TokenFacts.

Implicit Types (h : Host) (self : CPUDetector) (f fs : gmap string bool).
Implicit Types (k j text : string) (c : bool).

Lemma set_if_lookup_eq c k f :
  set_if c k f !! k = if c then Some true else f !! k.
Proof. rewrite set_if_lookup. by rewrite bool_decide_eq_true_2. Qed.

Lemma set_if_lookup_ne c k f j : k ≠ j → set_if c k f !! j = f !! j.
Proof. intros Hne. rewrite set_if_lookup. by rewrite bool_decide_eq_false_2. Qed.

Lemma reports_one_token text k :
  k ≠ "avx512_vnni" → k ≠ "avx512_bf16" → reports text k = (k in_str text).
Proof.
  intros Hv Hb. unfold reports, accepted_tokens.
  rewrite !bool_decide_eq_false_2 by done. simpl. apply orb_false_r.
Qed.

Lemma reports_avx512_vnni text :
  reports text "avx512_vnni" =
    ("avx512_vnni" in_str text) || ("avx512vnni" in_str text).
Proof.
  unfold reports, accepted_tokens. rewrite bool_decide_eq_true_2 by done.
  simpl. by rewrite orb_false_r.
Qed.

Lemma reports_avx512_bf16 text :
  reports text "avx512_bf16" =
    ("avx512_bf16" in_str text) || ("avx512bf16" in_str text).
Proof.
  unfold reports, accepted_tokens.
  rewrite bool_decide_eq_false_2, bool_decide_eq_true_2 by done.
  simpl. by rewrite orb_false_r.
Qed.

End TokenFacts.

(** Read an entry through a chain of [set_if]s on literal keys. *)
Ltac lookup_set_if :=
  repeat first [ rewrite set_if_lookup_eq | rewrite set_if_lookup_ne by discriminate ].

(** Unfold [reports] at a literal flag name. *)
Ltac rewrite_reports :=
  rewrite ?reports_avx512_vnni, ?reports_avx512_bf16,
    ?reports_one_token by discriminate.

(** One goal for each name of a literal list of flags. *)
Ltac each_flag Hk names :=
  unfold names in Hk; rewrite !elem_of_cons, elem_of_nil in Hk;
  repeat (destruct Hk as [-> | Hk]); [..| done].

Section ScanFacts.

Implicit Types (h : Host) (self : CPUDetector) (f fs : gmap string bool).
Implicit Types (k j text : string) (c : bool).

Lemma scan_cpuinfo_lookup text f k :
  k ∈ linux_flag_names →
  scan_cpuinfo text f !! k = if reports text k then Some true else f !! k.
Proof.
  intros Hk. each_flag Hk linux_flag_names;
    unfold scan_cpuinfo; lookup_set_if; by rewrite_reports.
Qed.

Lemma scan_lscpu_lookup text f k :
  k ∈ tier_flag_names →
  scan_lscpu text f !! k = if reports text k then Some true else f !! k.
Proof.
  intros Hk. each_flag Hk tier_flag_names;
    unfold scan_lscpu; lookup_set_if; by rewrite_reports.
Qed.

Lemma scan_lscpu_lookup_other text f k :
  k ∉ tier_flag_names → scan_lscpu text f !! k = f !! k.
Proof.
  intros Hk. unfold tier_flag_names in Hk.
  rewrite !elem_of_cons, elem_of_nil in Hk.
  unfold scan_lscpu. rewrite !set_if_lookup_ne by naive_solver. done.
Qed.

Lemma scan_lscpu_keeps_true text f k :
  f !! k = Some true → scan_lscpu text f !! k = Some true.
Proof. intros Hk. unfold scan_lscpu. by repeat apply set_if_keeps_true. Qed.

Lemma linux_flags_lookup k : k ∈ linux_flag_names → linux_flags !! k = Some false.
Proof. intros Hk. by each_flag Hk linux_flag_names. Qed.

Lemma base_flags_lookup k : k ∈ tier_flag_names → base_flags !! k = Some false.
Proof. intros Hk. by each_flag Hk tier_flag_names. Qed.

Lemma tier_flag_is_linux_flag k : k ∈ tier_flag_names → k ∈ linux_flag_names.
Proof.
  unfold tier_flag_names, linux_flag_names. rewrite !elem_of_cons, !elem_of_nil. tauto.
Qed.

(** The dictionary after the first and after the second [try] block of
    [_detect_linux], when nothing escapes them. *)
Lemma detect_linux_returns h self :
  handled [FileNotFoundError] (proc_cpuinfo h) = true →
  handled [TimeoutExpired; FileNotFoundError] (lscpu h) = true →
  let f1 := match proc_cpuinfo h with
            | Returned text => scan_cpuinfo (Str.lower text) linux_flags
            | Raised _ => linux_flags
            end in
  let f2 := match lscpu h with
            | Returned result =>
                if bool_decide (returncode result = 0)
                then scan_lscpu (Str.lower (stdout result)) f1 else f1
            | Raised _ => f1
            end in
  _detect_linux h self = (with_features self f2, Returned f2).
Proof.
  intros H1 H2. unfold _detect_linux, bind, try_except, call, ret, set_features.
  destruct (proc_cpuinfo h) as [text|e1]; simpl in *.
  - destruct (lscpu h) as [result|e2]; simpl in *.
    + by destruct (bool_decide (returncode result = 0)).
    + by rewrite H2.
  - rewrite H1. destruct (lscpu h) as [result|e2]; simpl in *.
    + by destruct (bool_decide (returncode result = 0)).
    + by rewrite H2.
Qed.

(** What no handler names goes through to the caller. *)
Lemma detect_linux_raises h self e :
  proc_cpuinfo h = Raised e → e ≠ FileNotFoundError →
  _detect_linux h self = (self, Raised e).
Proof.
  intros Hr He. unfold _detect_linux, bind, try_except, call, ret. rewrite Hr.
  rewrite bool_decide_eq_false_2; [done|].
  rewrite elem_of_cons, elem_of_nil. by intros [|].
Qed.

Lemma detect_macos_returns h self :
  handled [TimeoutExpired; FileNotFoundError] (sysctl h) = true →
  let fs := match sysctl h with
            | Returned result =>
                if bool_decide (returncode result = 0)
                then set_if ("avx512" in_str Str.lower (stdout result)) "avx512f" base_flags
                else base_flags
            | Raised _ => base_flags
            end in
  _detect_macos h self = (with_features self fs, Returned fs).
Proof.
  intros Hh. unfold _detect_macos, bind, try_except, call, ret, set_features.
  destruct (sysctl h) as [result|e]; simpl in *.
  - by destruct (bool_decide (returncode result = 0)).
  - by rewrite Hh.
Qed.

End ScanFacts.

(** C5, as the code has it.  When nothing escapes the Linux probe, each of
    avx512f, avx512_vnni, avx512_bf16 and amx_bf16 ends up true exactly when
    /proc/cpuinfo was read and its lowered text has an accepted spelling, or
    lscpu exited with status 0 and its lowered output has one; amx_tile and
    amx_int8 end up true whenever the text of /proc/cpuinfo has their token;
    and the scan of the lscpu output never clears a flag that is already
    true. *)
Theorem detect_linux_merges_sources (h : Host) (self : CPUDetector) :
  handled [FileNotFoundError] (proc_cpuinfo h) = true →
  handled [TimeoutExpired; FileNotFoundError] (lscpu h) = true →
  ∃ fs : gmap string bool,
    _detect_linux h self = (with_features self fs, Returned fs) ∧
    (∀ k, k ∈ tier_flag_names →
       fs !! k = Some (cpuinfo_reports (proc_cpuinfo h) k || command_reports (lscpu h) k)) ∧
    (∀ k, k ∈ linux_flag_names →
       cpuinfo_reports (proc_cpuinfo h) k = true → fs !! k = Some true) ∧
    (∀ out (f : gmap string bool) k,
       f !! k = Some true → scan_lscpu out f !! k = Some true).
Proof.
  intros H1 H2. eexists. split; [by apply detect_linux_returns|].
  split_and!.
  - intros k Hk. pose proof (tier_flag_is_linux_flag k Hk) as Hk'.
    destruct (proc_cpuinfo h) as [text|e1], (lscpu h) as [result|e2]; simpl;
      try destruct (bool_decide (returncode result = 0)); simpl;
      rewrite ?scan_lscpu_lookup, ?scan_cpuinfo_lookup, ?linux_flags_lookup by done;
      by repeat destruct (reports _ _).
  - intros k Hk Hrep.
    assert (∀ f : gmap string bool, f !! k = Some true →
      match lscpu h with
      | Returned result =>
          if bool_decide (returncode result = 0)
          then scan_lscpu (Str.lower (stdout result)) f else f
      | Raised _ => f
      end !! k = Some true) as Hkeep.
    { intros f Hf. destruct (lscpu h) as [result|e2]; [|done].
      destruct (bool_decide _); [|done]. by apply scan_lscpu_keeps_true. }
    apply Hkeep. destruct (proc_cpuinfo h) as [text|e1]; simpl in Hrep; [|done].
    rewrite scan_cpuinfo_lookup by done. by rewrite Hrep.
  - intros out f k. apply scan_lscpu_keeps_true.
Qed.

Lemma detect_linux_merges_sources_witness :
  features (_detect_linux host_linux_two_sources (__init__ host_linux_two_sources)).1
    !! "avx512f" = Some true ∧
  features (_detect_linux host_linux_two_sources (__init__ host_linux_two_sources)).1
    !! "avx512_vnni" = Some true ∧
  features (_detect_linux host_linux_two_sources (__init__ host_linux_two_sources)).1
    !! "avx512_bf16" = Some false.
Proof.
  destruct (detect_linux_merges_sources host_linux_two_sources
              (__init__ host_linux_two_sources) eq_refl eq_refl)
    as (fs & Hrun & Htier & _).
  rewrite Hrun. simpl.
  split_and!; (rewrite Htier; [reflexivity|]);
    unfold tier_flag_names; rewrite !elem_of_cons; tauto.
Defined.

(** C5, as stated, fails on two hosts.  With amx_tile only in the output of
    lscpu (exit status 0) the flag stays false, because the second scan looks
    for four flags only; with avx512f only in the output of an lscpu that
    exits with status 1 the flag stays false, because that output is not
    scanned. *)
Lemma lscpu_output_not_searched_like_cpuinfo :
  (lscpu host_lscpu_amx = completed 0 "Flags: fpu amx_tile amx_int8" ∧
   reports (Str.lower "Flags: fpu amx_tile amx_int8") "amx_tile" = true ∧
   is_returned (_detect_linux host_lscpu_amx (__init__ host_lscpu_amx)).2 = true ∧
   features (_detect_linux host_lscpu_amx (__init__ host_lscpu_amx)).1
     !! "amx_tile" = Some false) ∧
  (lscpu host_lscpu_failed = completed 1 "Flags: fpu avx512f" ∧
   reports (Str.lower "Flags: fpu avx512f") "avx512f" = true ∧
   is_returned (_detect_linux host_lscpu_failed (__init__ host_lscpu_failed)).2 = true ∧
   features (_detect_linux host_lscpu_failed (__init__ host_lscpu_failed)).1
     !! "avx512f" = Some false).
Proof. split; split_and!; by vm_compute. Qed.

(** C6, as the code has it.  On Linux, when lscpu is missing or times out
    and the read of /proc/cpuinfo raises [e]: if [e] is [FileNotFoundError]
    (the file is not there), [detect] returns (raises nothing) a dictionary
    with the six flags, all false, and stores it in the detector; every other
    exception of the read escapes to the caller, and the detector stays as
    it was. *)
Theorem detect_linux_without_sources (h : Host) (self : CPUDetector) (e : exn) :
  system self = "Linux" →
  proc_cpuinfo h = Raised e →
  lscpu h = Raised FileNotFoundError ∨ lscpu h = Raised TimeoutExpired →
  (e = FileNotFoundError →
     detect h self = (with_features self linux_flags, Returned linux_flags) ∧
     _detect_linux h self = (with_features self linux_flags, Returned linux_flags)) ∧
  (e ≠ FileNotFoundError →
     detect h self = (self, Raised e) ∧
     _detect_linux h self = (self, Raised e)) ∧
  (∀ k, k ∈ linux_flag_names → linux_flags !! k = Some false) ∧
  dom linux_flags = list_to_set linux_flag_names.
Proof.
  intros Hsys Hcpu Hcmd.
  assert (detect h self = _detect_linux h self) as Hdetect.
  { unfold detect, bind, get_self. by rewrite Hsys. }
  rewrite Hdetect.
  split_and!; [| |apply linux_flags_lookup|by vm_compute].
  - intros ->.
    unfold _detect_linux, bind, try_except, call, ret, set_features.
    rewrite Hcpu. by destruct Hcmd as [-> | ->].
  - intros He. split; by apply detect_linux_raises.
Qed.

Lemma detect_linux_without_sources_witness :
  detect host_linux_blind (__init__ host_linux_blind)
    = (with_features (__init__ host_linux_blind) linux_flags, Returned linux_flags).
Proof.
  apply (detect_linux_without_sources host_linux_blind (__init__ host_linux_blind)
           FileNotFoundError);
    [reflexivity | reflexivity | left; reflexivity | reflexivity].
Defined.

(** C6, as stated, fails when /proc/cpuinfo is there and may not be opened
    while lscpu is missing: the read raises [PermissionError], which the
    handler of [_detect_linux] does not name, and the exception escapes
    [_detect_linux], [detect] and [main]. *)
Lemma unreadable_cpuinfo_escapes :
  platform_system host_linux_unreadable = "Linux" ∧
  proc_cpuinfo host_linux_unreadable = Raised PermissionError ∧
  lscpu host_linux_unreadable = Raised FileNotFoundError ∧
  _detect_linux host_linux_unreadable (__init__ host_linux_unreadable)
    = (__init__ host_linux_unreadable, Raised PermissionError) ∧
  detect host_linux_unreadable (__init__ host_linux_unreadable)
    = (__init__ host_linux_unreadable, Raised PermissionError) ∧
  main host_linux_unreadable
    = (__init__ host_linux_unreadable, Raised PermissionError).
Proof. split_and!; by vm_compute. Qed.

(** C7.  The scan of /proc/cpuinfo is a substring search in the lowered text,
    so it does not see the case of the letters; for every text avx512_vnni
    becomes true exactly when the lowered text contains avx512_vnni or
    avx512vnni, and avx512_bf16 exactly when it contains avx512_bf16 or
    avx512bf16.  The dictionary so obtained is what [_detect_linux] returns
    when the descriptor text is its only source. *)
Theorem detect_linux_token_matching (text : string) :
  let fs := scan_cpuinfo (Str.lower text) linux_flags in
  (∀ (h : Host) (self : CPUDetector),
     proc_cpuinfo h = Returned text →
     lscpu h = Raised FileNotFoundError ∨ lscpu h = Raised TimeoutExpired →
     _detect_linux h self = (with_features self fs, Returned fs)) ∧
  fs = scan_cpuinfo (Str.lower (Str.lower text)) linux_flags ∧
  fs !! "avx512_vnni" =
    Some (("avx512_vnni" in_str Str.lower text) || ("avx512vnni" in_str Str.lower text)) ∧
  fs !! "avx512_bf16" =
    Some (("avx512_bf16" in_str Str.lower text) || ("avx512bf16" in_str Str.lower text)) ∧
  (fs !! "avx512_vnni" = Some true ↔
     substring "avx512_vnni" (Str.lower text) ∨ substring "avx512vnni" (Str.lower text)) ∧
  (fs !! "avx512_bf16" = Some true ↔
     substring "avx512_bf16" (Str.lower text) ∨ substring "avx512bf16" (Str.lower text)).
Proof.
  intros fs.
  assert (fs !! "avx512_vnni" =
    Some (("avx512_vnni" in_str Str.lower text) || ("avx512vnni" in_str Str.lower text)))
    as Hvnni.
  { unfold fs, scan_cpuinfo. lookup_set_if. destruct (_ || _); reflexivity. }
  assert (fs !! "avx512_bf16" =
    Some (("avx512_bf16" in_str Str.lower text) || ("avx512bf16" in_str Str.lower text)))
    as Hbf16.
  { unfold fs, scan_cpuinfo. lookup_set_if.
    destruct (("avx512_bf16" in_str Str.lower text)
              || ("avx512bf16" in_str Str.lower text)); reflexivity. }
  split_and!; [| by rewrite lower_idemp | done | done | |].
  - intros h self Hcpu Hcmd.
    unfold _detect_linux, bind, try_except, call, ret, set_features.
    rewrite Hcpu. by destruct Hcmd as [-> | ->].
  - rewrite Hvnni. unfold substring. rewrite <- !contains_app, <- orb_true_iff.
    split; [by intros [= ->] | by intros ->].
  - rewrite Hbf16. unfold substring. rewrite <- !contains_app, <- orb_true_iff.
    split; [by intros [= ->] | by intros ->].
Qed.

(** In capitals and with the joined spelling: AVX512VNNI sets avx512_vnni. *)
Lemma detect_linux_token_matching_witness :
  _detect_linux host_linux_vnni (__init__ host_linux_vnni)
    = (with_features (__init__ host_linux_vnni)
         (scan_cpuinfo (Str.lower "Flags : FPU AVX512F AVX512VNNI AMX_TILE") linux_flags),
       Returned
         (scan_cpuinfo (Str.lower "Flags : FPU AVX512F AVX512VNNI AMX_TILE") linux_flags)) ∧
  scan_cpuinfo (Str.lower "Flags : FPU AVX512F AVX512VNNI AMX_TILE") linux_flags
    !! "avx512_vnni" = Some true ∧
  scan_cpuinfo (Str.lower "Flags : FPU AVX512F AVX512VNNI AMX_TILE") linux_flags
    !! "avx512_bf16" = Some false.
Proof.
  destruct (detect_linux_token_matching "Flags : FPU AVX512F AVX512VNNI AMX_TILE")
    as (Hrun & _ & Hvnni & Hbf16 & _).
  split_and!.
  - apply (Hrun host_linux_vnni (__init__ host_linux_vnni));
      [reflexivity | right; reflexivity].
  - rewrite Hvnni. reflexivity.
  - rewrite Hbf16. reflexivity.
Defined.

(** C8, as the code has it.  When nothing escapes the macOS probe, the flags
    avx512_vnni, avx512_bf16 and amx_bf16 are false, and avx512f is true
    exactly when sysctl exited with status 0 and its lowered output contains
    avx512. *)
Theorem detect_macos_sets_avx512f_only (h : Host) (self : CPUDetector) :
  handled [TimeoutExpired; FileNotFoundError] (sysctl h) = true →
  ∃ fs : gmap string bool,
    _detect_macos h self = (with_features self fs, Returned fs) ∧
    fs !! "avx512_vnni" = Some false ∧
    fs !! "avx512_bf16" = Some false ∧
    fs !! "amx_bf16" = Some false ∧
    fs !! "avx512f" =
      Some match sysctl h with
           | Returned result =>
               bool_decide (returncode result = 0)
               && ("avx512" in_str Str.lower (stdout result))
           | Raised _ => false
           end.
Proof.
  intros Hh. eexists. split; [by apply detect_macos_returns|].
  destruct (sysctl h) as [result|e]; [|by split_and!].
  destruct (bool_decide (returncode result = 0)); [|by split_and!].
  split_and!; lookup_set_if; try done.
  by destruct (_ in_str _).
Qed.

Lemma detect_macos_sets_avx512f_only_witness :
  features (_detect_macos host_macos_avx512 (__init__ host_macos_avx512)).1
    !! "avx512f" = Some true ∧
  features (_detect_macos host_macos_avx512 (__init__ host_macos_avx512)).1
    !! "avx512_vnni" = Some false.
Proof.
  destruct (detect_macos_sets_avx512f_only host_macos_avx512
              (__init__ host_macos_avx512) eq_refl)
    as (fs & Hrun & Hvnni & _ & _ & Hf).
  rewrite Hrun. simpl. split; [by rewrite Hf | done].
Defined.

(** C8, as stated, fails when sysctl prints a line with avx512 and exits with
    status 1: the output is not looked at and avx512f stays false. *)
Lemma macos_output_ignored_on_failure :
  sysctl host_macos_sysctl_failed
    = completed 1 "hw.optional.avx512f: 1
hw.optional.avx512vnni: 1
" ∧
  ("avx512" in_str Str.lower "hw.optional.avx512f: 1
hw.optional.avx512vnni: 1
") = true ∧
  is_returned
    (_detect_macos host_macos_sysctl_failed (__init__ host_macos_sysctl_failed)).2
    = true ∧
  features (_detect_macos host_macos_sysctl_failed (__init__ host_macos_sysctl_failed)).1
    !! "avx512f" = Some false.
Proof. split_and!; by vm_compute. Qed.

(** ** The run of [main] *)

Section MainFacts.

Implicit Types (h : Host) (self : CPUDetector) (f fs : gmap string bool).

Lemma nonempty_of_entry fs k : is_Some (fs !! k) → fs ≠ ∅.
Proof. intros [b Hb] ->. by rewrite lookup_empty in Hb. Qed.

Lemma scan_cpuinfo_keeps_entry text f k :
  is_Some (f !! k) → is_Some (scan_cpuinfo text f !! k).
Proof. intros Hk. unfold scan_cpuinfo. by repeat apply set_if_keeps_entry. Qed.

Lemma scan_lscpu_keeps_entry text f k :
  is_Some (f !! k) → is_Some (scan_lscpu text f !! k).
Proof. intros Hk. unfold scan_lscpu. by repeat apply set_if_keeps_entry. Qed.

(** A probe either raises and leaves the detector alone, or stores and returns
    a dictionary that is not empty. *)
Lemma detect_linux_cases h self :
  (∃ fs, _detect_linux h self = (with_features self fs, Returned fs) ∧ fs ≠ ∅) ∨
  (∃ e, _detect_linux h self = (self, Raised e)).
Proof.
  assert (is_Some (linux_flags !! "avx512f")) as Hinit by (by eexists).
  unfold _detect_linux, bind, try_except, call, ret, set_features.
  destruct (proc_cpuinfo h) as [text|e1]; simpl.
  - pose proof (scan_cpuinfo_keeps_entry (Str.lower text) _ _ Hinit) as H1.
    destruct (lscpu h) as [result|e2]; simpl.
    + destruct (bool_decide (returncode result = 0)); simpl; left; eexists;
        (split; [done|]); eapply nonempty_of_entry;
        eauto using scan_lscpu_keeps_entry.
    + destruct (bool_decide (e2 ∈ _)); [left|right]; eauto using nonempty_of_entry.
  - destruct (bool_decide (e1 ∈ _)); simpl; [|right; eauto].
    destruct (lscpu h) as [result|e2]; simpl.
    + destruct (bool_decide (returncode result = 0)); simpl; left; eexists;
        (split; [done|]); eapply nonempty_of_entry;
        eauto using scan_lscpu_keeps_entry.
    + destruct (bool_decide (e2 ∈ _)); [left|right]; eauto using nonempty_of_entry.
Qed.

Lemma detect_macos_cases h self :
  (∃ fs, _detect_macos h self = (with_features self fs, Returned fs) ∧ fs ≠ ∅) ∨
  (∃ e, _detect_macos h self = (self, Raised e)).
Proof.
  assert (is_Some (base_flags !! "avx512f")) as Hinit by (by eexists).
  unfold _detect_macos, bind, try_except, call, ret, set_features.
  destruct (sysctl h) as [result|e]; simpl.
  - destruct (bool_decide (returncode result = 0)); simpl; left; eexists;
      (split; [done|]); eapply nonempty_of_entry; eauto using set_if_keeps_entry.
  - destruct (bool_decide (e ∈ _)); [left|right]; eauto using nonempty_of_entry.
Qed.

Lemma detect_windows_run h self :
  _detect_windows h self = (with_features self base_flags, Returned base_flags) ∧
  base_flags ≠ ∅.
Proof. split; [done|]. apply (nonempty_of_entry _ "avx512f"). by eexists. Qed.

(** [detect] on a fresh detector: [machine] and [system] stay, and when it
    returns the dictionary it leaves is empty on an unknown system only. *)
Lemma detect_fresh h :
  let r := detect h (__init__ h) in
  machine r.1 = platform_machine h ∧
  system r.1 = platform_system h ∧
  (is_returned r.2 = true →
   (features r.1 ≠ ∅ ↔ platform_system h ∈ ["Linux"; "Darwin"; "Windows"])).
Proof.
  unfold detect, bind, get_self. simpl.
  rewrite !elem_of_cons, elem_of_nil.
  case_bool_decide as HL.
  { destruct (detect_linux_cases h (__init__ h)) as [(fs & -> & Hne) | (e & ->)];
      simpl; split_and!; try done; tauto. }
  case_bool_decide as HD.
  { destruct (detect_macos_cases h (__init__ h)) as [(fs & -> & Hne) | (e & ->)];
      simpl; split_and!; try done; tauto. }
  case_bool_decide as HW.
  { destruct (detect_windows_run h (__init__ h)) as [-> Hne].
    simpl. split_and!; try done; tauto. }
  simpl. split_and!; try done. tauto.
Qed.

Lemma model_name_self lines h self : (model_name lines h self).1 = self.
Proof.
  induction lines as [|line rest IH]; cbn [model_name]; [done|].
  destruct (Str.startswith "model name" line); [|done].
  by destruct (Str.split ":" line !! 1%nat).
Qed.

Lemma get_cpu_info_self h self : (get_cpu_info h self).1 = self.
Proof.
  unfold get_cpu_info, bind, get_self, try_except, call, ret.
  destruct (bool_decide (system self = "Linux")); simpl.
  - destruct (proc_cpuinfo h) as [text|e]; simpl.
    + pose proof (model_name_self (Str.readlines text) h self) as Hm.
      destruct (model_name _ h self) as [self' [[name|]|e]]; simpl in *;
        subst; try done.
      by destruct (bool_decide (e ∈ _)).
    + by destruct (bool_decide (e ∈ _)).
  - done.
Qed.

(** *** When a run completes *)

Lemma split_nonempty sep s : Str.split sep s ≠ [].
Proof.
  destruct s as [|c t]; simpl; [done|].
  destruct (bool_decide (c = sep)); [done|]. by destruct (Str.split sep t).
Qed.

(** [s.split(sep)] has a second field exactly when [sep] occurs in [s]. *)
Lemma split_second_field sep s :
  is_Some (Str.split sep s !! 1%nat) ↔ (String sep "" in_str s) = true.
Proof.
  induction s as [|c t IH]; simpl.
  - split; [by intros [? ?] | done].
  - rewrite (bool_decide_ext (sep = c) (c = sep)) by done.
    destruct (bool_decide (c = sep)); simpl.
    + split; [done|]. intros _.
      pose proof (split_nonempty sep t). destruct (Str.split sep t); [done|by eexists].
    + rewrite <- IH. pose proof (split_nonempty sep t).
      by destruct (Str.split sep t).
Qed.

Lemma model_name_is_returned lines h self :
  is_returned (model_name lines h self).2 = model_name_ok lines.
Proof.
  induction lines as [|line rest IH]; cbn [model_name model_name_ok]; [done|].
  destruct (Str.startswith "model name" line); [|done].
  pose proof (split_second_field ":" line) as Hsplit.
  destruct (Str.split ":" line !! 1%nat) as [field|]; simpl.
  - symmetry. apply Hsplit. by eexists.
  - destruct (":" in_str line); [|done].
    by destruct (proj2 Hsplit eq_refl).
Qed.

Lemma model_name_raises lines h self e :
  (model_name lines h self).2 = Raised e → e = IndexError.
Proof.
  induction lines as [|line rest IH]; cbn [model_name]; [done|].
  destruct (Str.startswith "model name" line); [|done].
  destruct (Str.split ":" line !! 1%nat); [done|]. by intros [= ->].
Qed.

Lemma get_cpu_info_is_returned h self :
  is_returned (get_cpu_info h self).2 =
    if bool_decide (system self = "Linux") then
      match proc_cpuinfo h with
      | Returned text => model_name_ok (Str.readlines text)
      | Raised e => bool_decide (e ∈ [FileNotFoundError])
      end
    else true.
Proof.
  unfold get_cpu_info, bind, get_self, try_except, call, ret.
  destruct (bool_decide (system self = "Linux")); simpl; [|done].
  destruct (proc_cpuinfo h) as [text|e]; simpl.
  - rewrite <- (model_name_is_returned (Str.readlines text) h self).
    pose proof (model_name_raises (Str.readlines text) h self) as Hexn.
    destruct (model_name _ h self) as [self' [[name|]|e]]; try done.
    simpl. by rewrite (Hexn e eq_refl).
  - by destruct (bool_decide (e ∈ _)).
Qed.

Lemma detect_linux_is_returned h self :
  is_returned (_detect_linux h self).2 =
    handled [FileNotFoundError] (proc_cpuinfo h)
    && handled [TimeoutExpired; FileNotFoundError] (lscpu h).
Proof.
  unfold _detect_linux, bind, try_except, call, ret, set_features.
  destruct (proc_cpuinfo h) as [text|e1]; simpl;
    [|destruct (bool_decide (e1 ∈ _)); simpl; [|done]];
    (destruct (lscpu h) as [result|e2]; simpl;
      [by destruct (bool_decide (returncode result = 0))
      |by destruct (bool_decide (e2 ∈ _))]).
Qed.

Lemma detect_macos_is_returned h self :
  is_returned (_detect_macos h self).2 =
    handled [TimeoutExpired; FileNotFoundError] (sysctl h).
Proof.
  unfold _detect_macos, bind, try_except, call, ret, set_features.
  destruct (sysctl h) as [result|e]; simpl;
    [by destruct (bool_decide (returncode result = 0))
    |by destruct (bool_decide (e ∈ _))].
Qed.

(** *** Printing *)

Lemma bind_get_self {B} (k : CPUDetector → M B) h self :
  (let* x := get_self in k x) h self = k self h self.
Proof. done. Qed.

Lemma bind_print {B} (s : string) (k : unit → M B) h self :
  bind (print s) k h self =
    if printable h s then k tt h self else (self, Raised UnicodeEncodeError).
Proof. unfold bind, print. by destruct (printable h s). Qed.

Lemma for_each_print {A} (f : A → string) (l : list A) h self :
  for_each l (λ x, print (f x)) h self =
    (self, if forallb (printable h) (f <$> l)
           then Returned tt else Raised UnicodeEncodeError).
Proof.
  induction l as [|x l IH]; simpl; [done|].
  rewrite bind_print. by destruct (printable h (f x)).
Qed.

Lemma bind_for_each_print {A B} (f : A → string) (l : list A) (k : unit → M B) h self :
  bind (for_each l (λ x, print (f x))) k h self =
    if forallb (printable h) (f <$> l) then k tt h self
    else (self, Raised UnicodeEncodeError).
Proof.
  unfold bind at 1. rewrite for_each_print.
  by destruct (forallb _ _).
Qed.

Lemma bind_get_cpu_info {B} (k : string → M B) h self :
  bind get_cpu_info k h self =
    match (get_cpu_info h self).2 with
    | Returned name => k name h self
    | Raised e => (self, Raised e)
    end.
Proof.
  unfold bind at 1. pose proof (get_cpu_info_self h self) as Hs.
  destruct (get_cpu_info h self) as [self' [name|e]]; simpl in *; by subst.
Qed.

(** The rows of the table, as the two branches of [print_report] print
    them. *)
Lemma bind_feature_rows {B} (d : gmap string bool) (k : unit → M B) h self :
  bind (if bool_decide (d = ∅) then print "  (No features detected)"
        else for_each (sorted_items d) (λ item, print (feature_row item)))
       k h self =
    if forallb (printable h) (feature_rows d) then k tt h self
    else (self, Raised UnicodeEncodeError).
Proof.
  unfold feature_rows. destruct (bool_decide (d = ∅)).
  - rewrite bind_print. cbn [forallb]. by rewrite andb_true_r.
  - by rewrite bind_for_each_print.
Qed.

(** One [print] of a chain: the case in which standard output refuses the
    line is closed at once. *)
Ltac step_print :=
  rewrite bind_print;
  match goal with
  | |- context [printable ?h ?s] => destruct (printable h s) eqn:?
  end; cbn [andb]; [|done].

(** [print_report] prints the lines of [report] one after the other, calls
    [get_cpu_info] after the sixth, and stops at the first line that
    standard output does not take. *)
Lemma print_report_run h self :
  print_report h self =
    (self,
     if forallb (printable h) (take 6 (report self ""))
     then match (get_cpu_info h self).2 with
          | Returned cpu_model =>
              if forallb (printable h) (drop 6 (report self cpu_model))
              then Returned tt else Raised UnicodeEncodeError
          | Raised e => Raised e
          end
     else Raised UnicodeEncodeError).
Proof.
  unfold print_report. rewrite bind_get_self.
  change (take 6 (report self ""))
    with [ Fmt.repeat "=" 70; "vLLM CPU Package Detector"; Fmt.repeat "=" 70; "";
           "System:       " +:+ system self; "Architecture: " +:+ machine self ].
  cbn [forallb].
  do 6 step_print.
  rewrite bind_get_cpu_info.
  destruct ((get_cpu_info h self).2) as [cpu_model|e]; [|done].
  change (drop 6 (report self cpu_model))
    with ([ "CPU Model:    " +:+ cpu_model; ""; "Detected CPU Features:";
            Fmt.repeat "-" 70 ]
          ++ feature_rows (features self)
          ++ [ ""; "Recommended Package:"; Fmt.repeat "-" 70;
               "  " +:+ recommend_package self; ""; "Installation Command:";
               Fmt.repeat "-" 70; "  pip install " +:+ recommend_package self;
               ""; "All Available Packages:"; Fmt.repeat "-" 70 ]
          ++ package_rows (recommend_package self)
          ++ [ ""; Fmt.repeat "=" 70 ]).
  rewrite !forallb_app. cbn [forallb app].
  do 4 step_print.
  rewrite bind_get_self, bind_feature_rows.
  destruct (forallb (printable h) (feature_rows _)); cbn [andb]; [|done].
  do 11 step_print.
  unfold package_rows. rewrite bind_for_each_print.
  destruct (forallb (printable h) (_ <$> packages)); cbn [andb]; [|done].
  step_print.
  unfold print. rewrite andb_true_r.
  match goal with
  | |- context [printable ?h ?s] => by destruct (printable h s) eqn:?
  end.
Qed.

Lemma print_report_self h self : (print_report h self).1 = self.
Proof. by rewrite print_report_run. Qed.

(** [main] through its steps: [detect], [print_report], the test, and the two
    lines of the warning when the test fails. *)
Lemma main_eval h :
  let d := (detect h (__init__ h)).1 in
  main h =
    (d,
     match (detect h (__init__ h)).2 with
     | Raised e => Raised e
     | Returned _ =>
         match (print_report h d).2 with
         | Raised e => Raised e
         | Returned _ =>
             if bool_decide (features d ≠ ∅)
                || bool_decide (machine d ∈ ["aarch64"; "arm64"])
             then Returned 0
             else if printable h WARNING_1 && printable h WARNING_2
                  then Returned 1 else Raised UnicodeEncodeError
         end
     end).
Proof.
  unfold main, main_body. unfold bind at 1.
  destruct (detect h (__init__ h)) as [d [fs|e]]; simpl; [|done].
  unfold bind at 1. pose proof (print_report_self h d) as Hp.
  destruct (print_report h d) as [d' [[]|e]]; simpl in *; subst; [|done].
  rewrite bind_get_self.
  destruct (_ || _); [done|].
  rewrite !bind_print. unfold ret.
  by destruct (printable h WARNING_1), (printable h WARNING_2).
Qed.

Lemma main_run h :
  let d := (detect h (__init__ h)).1 in
  is_returned (main h).2 = true →
  is_returned (detect h (__init__ h)).2 = true ∧
  main h =
    (d, Returned (if bool_decide (features d ≠ ∅)
                     || bool_decide (machine d ∈ ["aarch64"; "arm64"])
                  then 0 else 1)).
Proof.
  intros d. subst d. rewrite (main_eval h). simpl.
  destruct ((detect h (__init__ h)).2) as [fs|e]; [|done].
  destruct ((print_report h _).2) as [[]|e]; [|done].
  destruct (_ || _); [done|].
  by destruct (printable h WARNING_1 && printable h WARNING_2).
Qed.

(** The first six lines of the report do not depend on the name of the
    processor. *)
Lemma forallb_report (p : string → bool) self cpu_model :
  forallb p (report self cpu_model) =
    forallb p (take 6 (report self "")) && forallb p (drop 6 (report self cpu_model)).
Proof. by rewrite <- forallb_app. Qed.

Lemma sources_ok_detect_cpu_info h :
  sources_ok h =
    is_returned (detect h (__init__ h)).2
    && is_returned (get_cpu_info h (detect h (__init__ h)).1).2.
Proof.
  destruct (detect_fresh h) as (_ & Hsys & _).
  rewrite get_cpu_info_is_returned, Hsys. clear Hsys.
  unfold sources_ok, detect, bind, get_self. simpl.
  destruct (bool_decide (platform_system h = "Linux")).
  { rewrite detect_linux_is_returned.
    destruct (proc_cpuinfo h) as [text|e]; simpl; [done|].
    destruct (bool_decide (e ∈ _)); simpl; [|done].
    by rewrite andb_true_r. }
  destruct (bool_decide (platform_system h = "Darwin")).
  { rewrite detect_macos_is_returned. by rewrite andb_true_r. }
  by destruct (bool_decide (platform_system h = "Windows")).
Qed.

(** [main] returns on exactly the hosts that [completes] describes. *)
Lemma main_is_returned h : is_returned (main h).2 = completes h.
Proof.
  unfold completes. rewrite sources_ok_detect_cpu_info, (main_eval h).
  unfold main_output. cbv zeta. cbn [snd].
  set (d := (detect h (__init__ h)).1).
  destruct ((detect h (__init__ h)).2) as [fs|e]; cbn [is_returned andb]; [|done].
  rewrite print_report_run. cbn [snd].
  destruct ((get_cpu_info h d).2) as [cpu_model|e]; cbn [is_returned andb].
  - rewrite forallb_app, forallb_report.
    destruct (forallb (printable h) (take 6 (report d ""))); cbn [andb]; [|done].
    destruct (forallb (printable h) (drop 6 (report d cpu_model)));
      cbn [andb]; [|done].
    destruct (_ || _); [done|]. cbn [forallb].
    by destruct (printable h WARNING_1), (printable h WARNING_2).
  - by destruct (forallb (printable h) (take 6 (report d ""))).
Qed.

End MainFacts.

(** Runs that an exception ends: the status is 1 whatever was detected. *)
Example exit_status_on_escape :
  main host_linux_denied = (__init__ host_linux_denied, Raised PermissionError) ∧
  exit_status host_linux_denied = 1 ∧
  (main host_linux_bad_model_name).2 = Raised IndexError ∧
  features (main host_linux_bad_model_name).1 !! "avx512f" = Some true ∧
  exit_status host_linux_bad_model_name = 1 ∧
  (main host_ascii_stdout).2 = Raised UnicodeEncodeError ∧
  exit_status host_ascii_stdout = 1.
Proof. split_and!; by vm_compute. Qed.

(** C1.  The code at an input where it departs from the claim: Linux on
    x86_64, a processor with none of the features, no lscpu, a standard
    output that takes every line.  No flag is detected (the six entries of
    the dictionary are false) and the architecture is not ARM, so the claim
    asks for the warning status 1; [main] returns 0, because it tests whether
    the dictionary is empty and not whether one of its flags is true.  The
    same on Windows, where nothing is ever detected. *)
Lemma exit_status_zero_without_any_flag :
  (platform_system host_linux_plain = "Linux" ∧
   platform_machine host_linux_plain = "x86_64" ∧
   main host_linux_plain
     = (with_features (__init__ host_linux_plain) linux_flags, Returned 0) ∧
   exit_status host_linux_plain = 0 ∧
   map_to_list linux_flags
     = [("amx_int8", false); ("amx_bf16", false); ("amx_tile", false);
        ("avx512_vnni", false); ("avx512_bf16", false); ("avx512f", false)]) ∧
  (platform_system host_windows = "Windows" ∧
   platform_machine host_windows = "x86_64" ∧
   main host_windows
     = (with_features (__init__ host_windows) base_flags, Returned 0) ∧
   exit_status host_windows = 0 ∧
   map_to_list base_flags
     = [("amx_bf16", false); ("avx512_vnni", false); ("avx512_bf16", false);
        ("avx512f", false)]).
Proof. split; split_and!; by vm_compute. Qed.

(** * More of the detector *)

(** ** [detect] as a whole *)

Section DetectFacts.

Implicit Types (h : Host) (self : CPUDetector) (f fs : gmap string bool).
Implicit Types (k j text : string) (c : bool).

(** What a probe computes does not depend on the detector it is run on. *)
Lemma detect_linux_shape h :
  (∃ fs, ∀ self, _detect_linux h self = (with_features self fs, Returned fs)) ∨
  (∃ e, ∀ self, _detect_linux h self = (self, Raised e)).
Proof.
  unfold _detect_linux, bind, try_except, call, ret, set_features.
  destruct (proc_cpuinfo h) as [text|e1]; simpl;
    [|destruct (bool_decide (e1 ∈ _)); simpl; [|right; eauto]];
    (destruct (lscpu h) as [result|e2]; simpl;
      [destruct (bool_decide (returncode result = 0)); simpl; left; eauto
      |destruct (bool_decide (e2 ∈ _)); [left|right]; eauto]).
Qed.

Lemma detect_macos_shape h :
  (∃ fs, ∀ self, _detect_macos h self = (with_features self fs, Returned fs)) ∨
  (∃ e, ∀ self, _detect_macos h self = (self, Raised e)).
Proof.
  unfold _detect_macos, bind, try_except, call, ret, set_features.
  destruct (sysctl h) as [result|e]; simpl;
    [destruct (bool_decide (returncode result = 0)); simpl; left; eauto
    |destruct (bool_decide (e ∈ _)); [left|right]; eauto].
Qed.

Lemma detect_shape h self :
  (∃ fs, detect h self = (with_features self fs, Returned fs) ∧
         detect h (with_features self fs) = (with_features self fs, Returned fs)) ∨
  (∃ r, detect h self = (self, r)).
Proof.
  unfold detect, bind, get_self. simpl.
  destruct (bool_decide (system self = "Linux")).
  { destruct (detect_linux_shape h) as [[fs Hfs] | [e He]].
    - left. exists fs. by rewrite !Hfs.
    - right. eexists. by rewrite He. }
  destruct (bool_decide (system self = "Darwin")).
  { destruct (detect_macos_shape h) as [[fs Hfs] | [e He]].
    - left. exists fs. by rewrite !Hfs.
    - right. eexists. by rewrite He. }
  destruct (bool_decide (system self = "Windows")).
  { left. by exists base_flags. }
  right. by eexists.
Qed.

Lemma set_if_is_Some c k f j :
  is_Some (f !! k) → is_Some (set_if c k f !! j) ↔ is_Some (f !! j).
Proof.
  intros Hk. rewrite set_if_lookup.
  destruct (bool_decide (k = j)) eqn:Hkj; simpl; [|done].
  apply bool_decide_eq_true in Hkj as <-. destruct c; [|done].
  split; [done | by eexists].
Qed.

Lemma set_if_dom c k f : is_Some (f !! k) → dom (set_if c k f) = dom f.
Proof.
  intros Hk. apply set_eq. intros j. rewrite !elem_of_dom.
  by apply set_if_is_Some.
Qed.

Lemma scan_cpuinfo_dom text f :
  (∀ k, k ∈ linux_flag_names → is_Some (f !! k)) →
  dom (scan_cpuinfo text f) = dom f.
Proof.
  intros Hf. unfold scan_cpuinfo.
  rewrite !set_if_dom; [done|..];
    repeat apply set_if_keeps_entry; apply Hf;
    unfold linux_flag_names; rewrite !elem_of_cons; tauto.
Qed.

Lemma scan_lscpu_dom text f :
  (∀ k, k ∈ tier_flag_names → is_Some (f !! k)) →
  dom (scan_lscpu text f) = dom f.
Proof.
  intros Hf. unfold scan_lscpu.
  rewrite !set_if_dom; [done|..];
    repeat apply set_if_keeps_entry; apply Hf;
    unfold tier_flag_names; rewrite !elem_of_cons; tauto.
Qed.

Lemma linux_flags_entries k : k ∈ linux_flag_names → is_Some (linux_flags !! k).
Proof. intros Hk. rewrite linux_flags_lookup by done. by eexists. Qed.

Lemma base_flags_entries k : k ∈ tier_flag_names → is_Some (base_flags !! k).
Proof. intros Hk. rewrite base_flags_lookup by done. by eexists. Qed.

Lemma linux_flags_dom : dom linux_flags = list_to_set linux_flag_names.
Proof.
  unfold linux_flags, linux_flag_names. rewrite !dom_insert_L, dom_empty_L.
  apply set_eq; intros k.
  rewrite !elem_of_union, !elem_of_list_to_set, !elem_of_cons,
    !elem_of_singleton, elem_of_nil, elem_of_empty. tauto.
Qed.

Lemma base_flags_dom : dom base_flags = list_to_set tier_flag_names.
Proof.
  unfold base_flags, tier_flag_names. rewrite !dom_insert_L, dom_empty_L.
  apply set_eq; intros k.
  rewrite !elem_of_union, !elem_of_list_to_set, !elem_of_cons,
    !elem_of_singleton, elem_of_nil, elem_of_empty. tauto.
Qed.

Lemma detect_linux_dom h self fs self' :
  _detect_linux h self = (self', Returned fs) →
  self' = with_features self fs ∧ dom fs = list_to_set linux_flag_names.
Proof.
  pose proof linux_flags_dom as Hdom.
  assert (∀ text, dom (scan_cpuinfo text linux_flags) = list_to_set linux_flag_names)
    as Hdom1.
  { intros text. rewrite scan_cpuinfo_dom; [done|]. apply linux_flags_entries. }
  assert (∀ out f, dom f = list_to_set linux_flag_names →
    dom (scan_lscpu out f) = list_to_set linux_flag_names) as Hdom2.
  { intros out f Hf. rewrite scan_lscpu_dom; [done|].
    intros k Hk%tier_flag_is_linux_flag. apply elem_of_dom. rewrite Hf.
    by apply elem_of_list_to_set. }
  unfold _detect_linux, bind, try_except, call, ret, set_features.
  destruct (proc_cpuinfo h) as [text|e1]; simpl;
    [|destruct (bool_decide (e1 ∈ _)); simpl; [|done]];
    (destruct (lscpu h) as [result|e2]; simpl;
      [destruct (bool_decide (returncode result = 0)); simpl
      |destruct (bool_decide (e2 ∈ _)); [|done]]);
    intros [= <- <-]; auto.
Qed.

Lemma detect_macos_dom h self fs self' :
  _detect_macos h self = (self', Returned fs) →
  self' = with_features self fs ∧ dom fs = list_to_set tier_flag_names.
Proof.
  pose proof base_flags_dom as Hdom.
  unfold _detect_macos, bind, try_except, call, ret, set_features.
  destruct (sysctl h) as [result|e]; simpl;
    [destruct (bool_decide (returncode result = 0)); simpl
    |destruct (bool_decide (e ∈ _)); [|done]];
    intros [= <- <-]; split; try done.
  rewrite set_if_dom; [done|]. apply base_flags_entries.
  unfold tier_flag_names. rewrite !elem_of_cons. tauto.
Qed.

End DetectFacts.

(** X1.  [detect] never changes [machine] and [system], whatever happens, and
    it is idempotent: run again on the same host it comes back with the same
    outcome and leaves the same detector. *)
Theorem detect_idempotent (h : Host) (self : CPUDetector) :
  machine (detect h self).1 = machine self ∧
  system (detect h self).1 = system self ∧
  detect h (detect h self).1 = detect h self.
Proof.
  destruct (detect_shape h self) as [(fs & Hrun & Hagain) | (r & Hrun)];
    rewrite Hrun; simpl; [by rewrite Hagain | by rewrite Hrun].
Qed.

(** X2.  The keys of the dictionary depend on the operating system alone: when
    [detect] returns, it has stored and returned a dictionary with exactly
    the six flags on Linux and exactly the four tier flags on Darwin and on
    Windows; on any other system it returns the empty dictionary and leaves
    the detector as it was. *)
Theorem detect_keys_by_system (h : Host) (self : CPUDetector) :
  is_returned (detect h self).2 = true →
  ∃ fs : gmap string bool,
    (detect h self).2 = Returned fs ∧
    (system self = "Linux" →
       (detect h self).1 = with_features self fs ∧
       dom fs = list_to_set linux_flag_names) ∧
    (system self = "Darwin" ∨ system self = "Windows" →
       (detect h self).1 = with_features self fs ∧
       dom fs = list_to_set tier_flag_names) ∧
    (system self ∉ ["Linux"; "Darwin"; "Windows"] →
       (detect h self).1 = self ∧ fs = ∅).
Proof.
  assert (system self ∉ ["Linux"; "Darwin"; "Windows"] ↔
    system self ≠ "Linux" ∧ system self ≠ "Darwin" ∧ system self ≠ "Windows")
    as Hother.
  { rewrite !elem_of_cons, elem_of_nil. tauto. }
  unfold detect, bind, get_self. simpl.
  case_bool_decide as HL.
  { destruct (_detect_linux h self) as [self' [fs|e]] eqn:Hrun; [|done].
    intros _. exists fs. apply detect_linux_dom in Hrun.
    simpl. rewrite Hother, HL. split_and!; try done; intuition discriminate. }
  case_bool_decide as HD.
  { destruct (_detect_macos h self) as [self' [fs|e]] eqn:Hrun; [|done].
    intros _. exists fs. apply detect_macos_dom in Hrun.
    simpl. rewrite Hother. split_and!; try done; tauto. }
  case_bool_decide as HW.
  { intros _. exists base_flags. simpl. rewrite Hother.
    pose proof base_flags_dom.
    split_and!; try done. tauto. }
  intros _. exists ∅. simpl. split_and!; try done. tauto.
Qed.

Lemma detect_keys_by_system_witness :
  dom (features (detect host_linux_split (__init__ host_linux_split)).1)
    = list_to_set linux_flag_names.
Proof.
  destruct (detect_keys_by_system host_linux_split (__init__ host_linux_split) eq_refl)
    as (fs & _ & HL & _).
  destruct (HL eq_refl) as [-> Hdom]. exact Hdom.
Defined.

(** ** What a recommendation says about the machine *)

Section RecommendationMore.

Implicit Types (self : CPUDetector) (fs : gmap string bool).

Lemma recommend_package_in_ids self : recommend_package self ∈ package_ids.
Proof.
  destruct (decide (machine self ∈ ["aarch64"; "arm64"])) as [Harm|Harm].
  { rewrite (recommend_package_arm _ Harm). unfold package_ids. simpl.
    rewrite !elem_of_cons. tauto. }
  destruct (decide (machine self = "x86_64")) as [Hx|Hx].
  { rewrite (recommend_package_x86_64 _ Hx). apply x86_64_tiers_in_catalog. }
  rewrite (recommend_package_other _ Harm Hx). unfold package_ids. simpl.
  rewrite !elem_of_cons. tauto.
Qed.

(** Without avx512_vnni and avx512f no test of the x86_64 block holds. *)
Lemma x86_64_tiers_none fs :
  flag fs "avx512_vnni" = false → flag fs "avx512f" = false →
  x86_64_tiers fs = None.
Proof.
  unfold flag, x86_64_tiers. intros -> ->. by rewrite !andb_false_r.
Qed.

Lemma recommend_package_no_flags self :
  flag (features self) "avx512_vnni" = false →
  flag (features self) "avx512f" = false →
  recommend_package self = "vllm-cpu".
Proof.
  intros Hv Hf. unfold recommend_package. rewrite x86_64_tiers_none by done.
  by repeat case_bool_decide.
Qed.

Lemma flag_of_lookup fs k b : fs !! k = Some b → flag fs k = b.
Proof. unfold flag. intros ->. by destruct b. Qed.

End RecommendationMore.

(** X3.  Read backwards, a recommendation tells which flags were found: the
    AMX package is recommended exactly on x86_64 with amx_bf16, avx512_bf16
    and avx512_vnni; the BF16 package exactly on x86_64 with avx512_bf16 and
    avx512_vnni but not amx_bf16; the VNNI package exactly on x86_64 with
    avx512_vnni but not avx512_bf16; the AVX512 package exactly on x86_64
    with avx512f but not avx512_vnni.  avx512f plays no part above the lowest
    tier, and without avx512_vnni neither avx512_bf16 nor amx_bf16 counts. *)
Theorem recommend_package_inverse (self : CPUDetector) :
  let fs := features self in
  (recommend_package self = "vllm-cpu-amxbf16" ↔
     machine self = "x86_64" ∧ flag fs "amx_bf16" = true ∧
     flag fs "avx512_bf16" = true ∧ flag fs "avx512_vnni" = true) ∧
  (recommend_package self = "vllm-cpu-avx512bf16" ↔
     machine self = "x86_64" ∧ flag fs "amx_bf16" = false ∧
     flag fs "avx512_bf16" = true ∧ flag fs "avx512_vnni" = true) ∧
  (recommend_package self = "vllm-cpu-avx512vnni" ↔
     machine self = "x86_64" ∧ flag fs "avx512_bf16" = false ∧
     flag fs "avx512_vnni" = true) ∧
  (recommend_package self = "vllm-cpu-avx512" ↔
     machine self = "x86_64" ∧ flag fs "avx512_vnni" = false ∧
     flag fs "avx512f" = true).
Proof.
  intros fs. subst fs.
  destruct (decide (machine self ∈ ["aarch64"; "arm64"])) as [Harm|Harm].
  { rewrite (recommend_package_arm _ Harm).
    rewrite !elem_of_cons, elem_of_nil in Harm.
    split_and!; (split; [done|]); intros [Hx _]; rewrite Hx in Harm;
      intuition discriminate. }
  destruct (decide (machine self = "x86_64")) as [Hx|Hx].
  - rewrite (recommend_package_x86_64 _ Hx). unfold x86_64_tiers, flag.
    destruct (truthy (_ !! "amx_bf16")), (truthy (_ !! "avx512_bf16")),
      (truthy (_ !! "avx512_vnni")), (truthy (_ !! "avx512f")); simpl;
      split_and!;
      (split; [first [by intros [=] | intros _; by split_and!]
              | intros (_ & ?); by intuition discriminate]).
  - rewrite (recommend_package_other _ Harm Hx).
    split_and!; (split; [done|]); by intros [? _].
Qed.

(** X4.  Finding more never recommends less: when every flag that is true in
    one dictionary is true in the other, the package for the other, on the
    same architecture, stands at the same place or further up in the list of
    packages. *)
Theorem recommend_package_monotone
    (architecture sys1 sys2 : string) (fs1 fs2 : gmap string bool) :
  flags_included fs1 fs2 →
  (tier_of (recommend_package
              {| machine := architecture; system := sys1; features := fs1 |})
   ≤ tier_of (recommend_package
                {| machine := architecture; system := sys2; features := fs2 |}))%nat.
Proof.
  intros Hincl. unfold recommend_package. simpl.
  destruct (bool_decide (architecture ∈ _)); [done|].
  destruct (bool_decide (architecture = "x86_64")); [|done].
  pose proof (Hincl "amx_bf16") as Ha. pose proof (Hincl "avx512_bf16") as Hb.
  pose proof (Hincl "avx512_vnni") as Hv. pose proof (Hincl "avx512f") as Hf.
  unfold flag in *. unfold x86_64_tiers.
  destruct (truthy (fs1 !! "amx_bf16")), (truthy (fs1 !! "avx512_bf16")),
    (truthy (fs1 !! "avx512_vnni")), (truthy (fs1 !! "avx512f"));
    rewrite ?Ha, ?Hb, ?Hv, ?Hf by done; simpl;
    destruct (truthy (fs2 !! "amx_bf16")), (truthy (fs2 !! "avx512_bf16")),
      (truthy (fs2 !! "avx512_vnni")), (truthy (fs2 !! "avx512f"));
    simpl; vm_compute; lia.
Qed.

Lemma recommend_package_monotone_witness :
  (tier_of (recommend_package detector_avx512f_only)
   ≤ tier_of (recommend_package detector_all_tiers))%nat.
Proof.
  apply (recommend_package_monotone "x86_64" "Linux" "Linux").
  intros k. unfold flag. simpl. rewrite !lookup_insert.
  repeat case_decide; done.
Defined.

(** ** From the host to the recommendation *)

Section EndToEnd.

Implicit Types (h : Host) (self : CPUDetector) (fs : gmap string bool).


Lemma empty_flag k : flag (∅ : gmap string bool) k = false.
Proof. unfold flag. by rewrite lookup_empty. Qed.

(** The four tier flags after the Linux probe: what either source reports. *)
Lemma detect_linux_tier_flags h self k :
  handled [FileNotFoundError] (proc_cpuinfo h) = true →
  handled [TimeoutExpired; FileNotFoundError] (lscpu h) = true →
  k ∈ tier_flag_names →
  features (_detect_linux h self).1 !! k = Some (linux_reports h k).
Proof.
  intros H1 H2 Hk. rewrite (detect_linux_returns h self H1 H2). simpl.
  pose proof (tier_flag_is_linux_flag k Hk) as Hk'. unfold linux_reports.
  destruct (proc_cpuinfo h) as [text|e1], (lscpu h) as [result|e2]; simpl;
    try destruct (bool_decide (returncode result = 0)); simpl;
    rewrite ?scan_lscpu_lookup, ?scan_cpuinfo_lookup, ?linux_flags_lookup by done;
    by repeat destruct (reports _ _).
Qed.

End EndToEnd.



(** X6.  On macOS the recommendation is never above the AVX512 package: when
    sysctl runs, is missing or times out, the package is vllm-cpu-avx512
    exactly on x86_64 with sysctl exiting with status 0 and avx512 in its
    lowered output, and vllm-cpu otherwise. *)
Theorem detect_macos_recommendation (h : Host) :
  platform_system h = "Darwin" →
  handled [TimeoutExpired; FileNotFoundError] (sysctl h) = true →
  recommend_package (detect h (__init__ h)).1 =
    if bool_decide (platform_machine h = "x86_64")
       && match sysctl h with
          | Returned result =>
              bool_decide (returncode result = 0)
              && ("avx512" in_str Str.lower (stdout result))
          | Raised _ => false
          end
    then "vllm-cpu-avx512" else "vllm-cpu".
Proof.
  intros HD Hh.
  assert (detect h (__init__ h) = _detect_macos h (__init__ h)) as ->.
  { unfold detect, bind, get_self. simpl. rewrite HD. done. }
  rewrite (detect_macos_returns h _ Hh). simpl.
  set (fs := match sysctl h with Returned _ => _ | Raised _ => _ end).
  set (found := match sysctl h with Returned _ => _ | Raised _ => false end).
  assert (flag fs "avx512_vnni" = false ∧ flag fs "avx512f" = found) as [Hv Hf].
  { unfold fs, found, flag. destruct (sysctl h) as [result|e]; [|done].
    destruct (bool_decide (returncode result = 0)); [|done].
    lookup_set_if. simpl. split; [done|]. by destruct (_ in_str _). }
  unfold recommend_package. simpl.
  destruct (decide (platform_machine h = "x86_64")) as [Hx|Hx].
  - rewrite Hx. rewrite bool_decide_eq_false_2, bool_decide_eq_true_2; [|done|].
    + unfold x86_64_tiers. unfold flag in Hv, Hf. rewrite Hv, Hf.
      rewrite !andb_false_r. by destruct found.
    + rewrite !elem_of_cons, elem_of_nil. by intros [|[|]].
  - rewrite (bool_decide_eq_false_2 _ Hx). simpl. by case_bool_decide.
Qed.

Lemma detect_macos_recommendation_witness :
  recommend_package (detect host_macos_avx512 (__init__ host_macos_avx512)).1
    = "vllm-cpu-avx512".
Proof.
  rewrite (detect_macos_recommendation host_macos_avx512 eq_refl eq_refl).
  by vm_compute.
Defined.

(** X7.  On Linux on x86_64 the recommendation is the catalog read on the
    flag-wise OR of the two sources: a flag counts when /proc/cpuinfo or an
    lscpu that exited with status 0 shows it, and the flags of one tier may
    come from different sources. *)
Theorem detect_linux_recommendation (h : Host) :
  platform_system h = "Linux" →
  platform_machine h = "x86_64" →
  handled [FileNotFoundError] (proc_cpuinfo h) = true →
  handled [TimeoutExpired; FileNotFoundError] (lscpu h) = true →
  recommend_package (detect h (__init__ h)).1 =
    if linux_reports h "amx_bf16" && linux_reports h "avx512_bf16"
       && linux_reports h "avx512_vnni"
    then "vllm-cpu-amxbf16"
    else if linux_reports h "avx512_bf16" && linux_reports h "avx512_vnni"
    then "vllm-cpu-avx512bf16"
    else if linux_reports h "avx512_vnni" then "vllm-cpu-avx512vnni"
    else if linux_reports h "avx512f" then "vllm-cpu-avx512"
    else "vllm-cpu".
Proof.
  intros HL Hx H1 H2.
  assert (detect h (__init__ h) = _detect_linux h (__init__ h)) as ->.
  { unfold detect, bind, get_self. simpl. by rewrite HL. }
  assert (∀ k, k ∈ tier_flag_names →
    truthy (features (_detect_linux h (__init__ h)).1 !! k) = linux_reports h k)
    as Hflag.
  { intros k Hk. rewrite (detect_linux_tier_flags h _ k H1 H2 Hk).
    by destruct (linux_reports h k). }
  rewrite recommend_package_x86_64.
  - unfold x86_64_tiers.
    rewrite !Hflag by (unfold tier_flag_names; rewrite !elem_of_cons; tauto).
    by repeat destruct (linux_reports h _).
  - rewrite (detect_linux_returns h _ H1 H2). done.
Qed.

Lemma detect_linux_recommendation_witness :
  recommend_package (detect host_linux_split (__init__ host_linux_split)).1
    = "vllm-cpu-amxbf16".
Proof.
  rewrite (detect_linux_recommendation host_linux_split
             eq_refl eq_refl eq_refl eq_refl).
  by vm_compute.
Defined.

(** X8.  The warning tells the truth about the package: whenever [main]
    returns 1, the dictionary of the detector is empty, the operating system
    is none of Linux, Darwin and Windows, the architecture is not ARM, and
    the package that was recommended is vllm-cpu. *)
Theorem main_warning_means_base_package (h : Host) :
  (main h).2 = Returned 1 →
  features (main h).1 = ∅ ∧
  recommend_package (main h).1 = "vllm-cpu" ∧
  (platform_system h ∉ ["Linux"; "Darwin"; "Windows"]) ∧
  (platform_machine h ∉ ["aarch64"; "arm64"]).
Proof.
  intros Hone.
  assert (is_returned (main h).2 = true) as Hret by (by rewrite Hone).
  destruct (main_run h Hret) as [Hdet Hmain].
  destruct (detect_fresh h) as (Hmach & _ & Hfs). specialize (Hfs Hdet).
  rewrite Hmain in Hone |- *. simpl in *.
  set (d := (detect h (__init__ h)).1) in *.
  destruct (decide (features d ≠ ∅)) as [Hne|He].
  { rewrite (bool_decide_eq_true_2 _ Hne) in Hone. done. }
  rewrite (bool_decide_eq_false_2 _ He) in Hone. simpl in Hone.
  apply dec_stable in He.
  destruct (decide (machine d ∈ ["aarch64"; "arm64"])) as [Harm|Harm].
  { rewrite (bool_decide_eq_true_2 _ Harm) in Hone. done. }
  split_and!; [done| | |by rewrite <- Hmach].
  - apply recommend_package_no_flags; rewrite He; apply empty_flag.
  - rewrite <- Hfs. by intros Hne.
Qed.

Lemma main_warning_means_base_package_witness :
  recommend_package (main host_freebsd).1 = "vllm-cpu".
Proof.
  apply (main_warning_means_base_package host_freebsd). by vm_compute.
Defined.

(** ** Texts, lines and fields *)

Section TextFacts.

Implicit Types (s t : string) (c : ascii).

Lemma string_app_assoc (a b c : string) : (a +:+ b) +:+ c = a +:+ (b +:+ c).
Proof.
  induction a as [|x a IH]; [done|].
  change (String x ((a +:+ b) +:+ c) = String x (a +:+ (b +:+ c))). by rewrite IH.
Qed.

Lemma string_app_nil_r s : s +:+ "" = s.
Proof.
  induction s as [|x s IH]; [done|].
  change (String x (s +:+ "") = String x s). by rewrite IH.
Qed.

(** A text has the character [c] when it begins with it or its tail has it. *)
Lemma substring_char_cons c x t :
  substring (String c "") (String x t) ↔ x = c ∨ substring (String c "") t.
Proof.
  unfold substring. rewrite <- !contains_app. cbn [Str.contains Str.startswith].
  rewrite orb_true_iff, andb_true_r, bool_decide_eq_true.
  split; (intros [Hx|Hs]; [left; by symmetry | by right]).
Qed.

Lemma substring_char_nil c : ¬ substring (String c "") "".
Proof. unfold substring. rewrite <- contains_app. by cbn. Qed.

(** *** Lines *)




Lemma readlines_lines_of text : lines_of text (Str.readlines text).
Proof.
  induction text as [|x t IH]; [constructor|].
  cbn [Str.readlines]. case_bool_decide as Hx.
  - subst x. apply (lines_of_cons "" t); [apply substring_char_nil | done].
  - inversion IH as [Ht Hl|body Hne Hfree Ht Hl|body rest ls Hfree Hrest Ht Hl].
    + apply (lines_of_last (String x "")); [done|].
      rewrite substring_char_cons. intros [|Hn]; [done|].
      by apply substring_char_nil in Hn.
    + apply (lines_of_last (String x t)); [done|].
      rewrite substring_char_cons. tauto.
    + apply (lines_of_cons (String x body) rest ls); [|done].
      rewrite substring_char_cons. tauto.
Qed.

(** *** Fields *)




(** *** White space *)






(** *** Texts read backwards *)

Lemma rev_app_spec s acc : String.rev_app s acc = String.rev s +:+ acc.
Proof.
  unfold String.rev. revert acc.
  induction s as [|x s IH]; intros acc; cbn [String.rev_app]; [done|].
  rewrite (IH (String x acc)), (IH (String x "")). by rewrite string_app_assoc.
Qed.

Lemma rev_cons c s : String.rev (String c s) = String.rev s +:+ String c "".
Proof. unfold String.rev at 1. cbn [String.rev_app]. apply rev_app_spec. Qed.

Lemma rev_app s t : String.rev (s +:+ t) = String.rev t +:+ String.rev s.
Proof.
  induction s as [|x s IH].
  - change ("" +:+ t) with t. by rewrite string_app_nil_r.
  - change (String x s +:+ t) with (String x (s +:+ t)).
    by rewrite !rev_cons, IH, string_app_assoc.
Qed.




End TextFacts.

(** ** The name of the processor *)

Section CpuInfoFacts.

Implicit Types (h : Host) (self : CPUDetector) (lines : list string).


Lemma processor_or_unknown_nonempty h : processor_or_unknown h ≠ "".
Proof. unfold processor_or_unknown. by case_bool_decide. Qed.

Lemma get_cpu_info_fallback h self :
  system self ≠ "Linux" ∨ proc_cpuinfo h = Raised FileNotFoundError →
  get_cpu_info h self = (self, Returned (processor_or_unknown h)).
Proof.
  intros Hcase. unfold get_cpu_info, bind, get_self, try_except, call, ret.
  simpl. case_bool_decide as HL; [|done].
  destruct Hcase as [Hn | ->]; done.
Qed.





End CpuInfoFacts.



(** The name as the first host has it, between the colon and the line
    feed. *)
Example get_cpu_info_ex :
  get_cpu_info host_linux_plain (__init__ host_linux_plain)
    = (__init__ host_linux_plain, Returned "Intel(R) Core(TM) i5-8250U").
Proof. by vm_compute. Qed.

(** X10.  Where [get_cpu_info] falls back on the platform (any system but
    Linux, or Linux without /proc/cpuinfo) it raises nothing and never
    answers with the empty string: the answer is [platform.processor()] when
    that is not empty and "Unknown CPU" when it is. *)
Theorem get_cpu_info_fallback_nonempty (h : Host) (self : CPUDetector) :
  system self ≠ "Linux" ∨ proc_cpuinfo h = Raised FileNotFoundError →
  ∃ name,
    get_cpu_info h self = (self, Returned name) ∧
    name ≠ "" ∧
    (platform_processor h ≠ "" → name = platform_processor h) ∧
    (platform_processor h = "" → name = "Unknown CPU").
Proof.
  intros Hcase. exists (processor_or_unknown h).
  split; [by apply get_cpu_info_fallback|].
  split; [apply processor_or_unknown_nonempty|].
  unfold processor_or_unknown. by case_bool_decide.
Qed.

Lemma get_cpu_info_fallback_nonempty_witness :
  get_cpu_info host_linux_blind (__init__ host_linux_blind)
    = (__init__ host_linux_blind, Returned "Unknown CPU").
Proof.
  destruct (get_cpu_info_fallback_nonempty host_linux_blind
              (__init__ host_linux_blind) (or_intror eq_refl))
    as (name & -> & _ & _ & Hname).
  by rewrite (Hname eq_refl).
Defined.

(** ** Runs that end well *)

Section CompletesFacts.

Implicit Types (h : Host) (self : CPUDetector).

Lemma forallb_false_of_elem {A} (p : A → bool) (l : list A) x :
  x ∈ l → p x = false → forallb p l = false.
Proof.
  intros Hx Hp. induction Hx as [x l|x y l _ IH]; cbn [forallb].
  - by rewrite Hp.
  - by rewrite IH, andb_false_r.
Qed.

Lemma forallb_all_true {A} (p : A → bool) (l : list A) :
  (∀ x, p x = true) → forallb p l = true.
Proof. intros Hp. induction l as [|x l IH]; cbn [forallb]; [done|]. by rewrite Hp, IH. Qed.

(** The row of the package that is recommended carries the mark, which is
    not ASCII. *)
Lemma chosen_row_not_ascii self :
  ∃ row, row ∈ package_rows (recommend_package self) ∧ Str.isascii row = false.
Proof.
  pose proof (recommend_package_in_ids self) as Hin.
  unfold package_ids in Hin. simpl in Hin.
  rewrite !elem_of_cons, elem_of_nil in Hin.
  assert (∀ package,
    existsb (λ row, negb (Str.isascii row)) (package_rows package) = true →
    ∃ row, row ∈ package_rows package ∧ Str.isascii row = false) as Hex.
  { intros package [row [Hrow Hna]]%existsb_exists. exists row. split.
    - by apply list_elem_of_In.
    - by apply negb_true_iff. }
  destruct Hin as [-> | [-> | [-> | [-> | [-> | []]]]]]; apply Hex; by vm_compute.
Qed.

Lemma chosen_row_in_report self cpu_model row :
  row ∈ package_rows (recommend_package self) →
  row ∈ drop 6 (report self cpu_model).
Proof.
  intros Hrow.
  change (drop 6 (report self cpu_model))
    with ([ "CPU Model:    " +:+ cpu_model; ""; "Detected CPU Features:";
            Fmt.repeat "-" 70 ]
          ++ feature_rows (features self)
          ++ [ ""; "Recommended Package:"; Fmt.repeat "-" 70;
               "  " +:+ recommend_package self; ""; "Installation Command:";
               Fmt.repeat "-" 70; "  pip install " +:+ recommend_package self;
               ""; "All Available Packages:"; Fmt.repeat "-" 70 ]
          ++ package_rows (recommend_package self)
          ++ [ ""; Fmt.repeat "=" 70 ]).
  rewrite !elem_of_app. tauto.
Qed.

(** On a standard output that has the ASCII characters only the report is
    never printed to its end. *)
Lemma print_report_ascii_only h self :
  (∀ s, Str.isascii s = false → stdout_encodes h s = false) →
  ∃ e, (print_report h self).2 = Raised e ∧
       (is_returned (get_cpu_info h self).2 = true → e = UnicodeEncodeError).
Proof.
  intros Hascii. rewrite print_report_run. cbn [snd].
  destruct (forallb (printable h) (take 6 (report self ""))); [|by eexists].
  destruct ((get_cpu_info h self).2) as [cpu_model|e]; [|by eexists].
  destruct (chosen_row_not_ascii self) as (row & Hrow & Hna).
  rewrite (forallb_false_of_elem _ _ row); [by eexists| |].
  - by apply chosen_row_in_report.
  - unfold printable. by rewrite Hna, (Hascii row Hna).
Qed.

End CompletesFacts.

(** X11.  [main] ends without an exception on exactly the hosts of
    [completes]: the sources raise only what the handlers name, the model
    name line is well formed, and standard output takes every line of the
    output.  Whatever happens, the detector is the one [detect] left.  On a
    standard output that takes every text the condition is that of the
    sources alone.  On a standard output that has the ASCII characters only
    [main] never returns: the row of the recommended package carries the
    mark, and the run ends with [UnicodeEncodeError] unless a source has
    ended it before. *)
Theorem main_completes_iff (h : Host) :
  ((∃ code, (main h).2 = Returned code) ↔ completes h = true) ∧
  (main h).1 = (detect h (__init__ h)).1 ∧
  ((∀ s, stdout_encodes h s = true) → completes h = sources_ok h) ∧
  ((∀ s, Str.isascii s = false → stdout_encodes h s = false) →
     ∃ e, (main h).2 = Raised e ∧ (sources_ok h = true → e = UnicodeEncodeError)).
Proof.
  split_and!.
  - rewrite <- main_is_returned. destruct ((main h).2) as [code|e]; simpl.
    + split; [done | by eexists].
    + split; [by intros [code [=]] | done].
  - by rewrite (main_eval h).
  - intros Hall. unfold completes. rewrite forallb_all_true; [apply andb_true_r|].
    intros s. unfold printable. by rewrite Hall, orb_true_r.
  - intros Hascii. rewrite (main_eval h), sources_ok_detect_cpu_info. cbn [snd].
    destruct ((detect h (__init__ h)).2) as [fs|e]; [|by eexists].
    destruct (print_report_ascii_only h (detect h (__init__ h)).1 Hascii)
      as (e & -> & He).
    exists e. split; [done|]. cbn [is_returned andb]. apply He.
Qed.

Lemma main_completes_iff_witness :
  (main host_ascii_stdout).2 = Raised UnicodeEncodeError.
Proof.
  destruct (proj2 (proj2 (proj2 (main_completes_iff host_ascii_stdout))))
    as (e & -> & He).
  - intros s _. reflexivity.
  - f_equal. apply He. by vm_compute.
Defined.

(** ** The report *)

Section ReportFacts.

Implicit Types (self : CPUDetector) (d : gmap string bool).

Global Instance item_le_trans : Transitive item_le.
Proof. intros a b c. unfold item_le. apply transitivity. Qed.

Global Instance item_le_total : Total item_le.
Proof. intros a b. unfold item_le. apply total, _. Qed.

Lemma sorted_items_perm d : sorted_items d ≡ₚ map_to_list d.
Proof. apply merge_sort_Permutation. Qed.

Lemma feature_rows_nonempty d :
  d ≠ ∅ → feature_rows d = feature_row <$> sorted_items d.
Proof. intros Hne. unfold feature_rows. by rewrite bool_decide_eq_false_2. Qed.

Lemma feature_rows_length d : d ≠ ∅ → length (feature_rows d) = size d.
Proof.
  intros Hne. rewrite feature_rows_nonempty by done.
  rewrite length_fmap, (Permutation_length (sorted_items_perm d)).
  apply length_map_to_list.
Qed.

Lemma linux_flag_names_NoDup : NoDup linux_flag_names.
Proof. unfold linux_flag_names. repeat (apply NoDup_cons; split;
  [rewrite ?elem_of_cons, elem_of_nil; intuition discriminate|]). apply NoDup_nil_2. Qed.

Lemma tier_flag_names_NoDup : NoDup tier_flag_names.
Proof. unfold tier_flag_names. repeat (apply NoDup_cons; split;
  [rewrite ?elem_of_cons, elem_of_nil; intuition discriminate|]). apply NoDup_nil_2. Qed.

Lemma size_of_dom d (names : list string) :
  NoDup names → dom d = list_to_set names → size d = length names.
Proof.
  intros Hnd Hdom. rewrite <- size_dom, Hdom. by apply size_list_to_set.
Qed.

End ReportFacts.

(** X12.  The list of packages in the report marks exactly one row, the row
    of the package that [recommend_package] returns, and that row stands at
    the place of the package's tier. *)
Theorem report_marks_recommended (self : CPUDetector) :
  let package := recommend_package self in
  ∃ entry : string * string,
    packages !! tier_of package = Some entry ∧
    entry.1 = package ∧
    List.filter (Str.startswith ("  " +:+ MARK_CHOSEN)) (package_rows package)
      = [package_row package entry].
Proof.
  intros package. subst package.
  pose proof (recommend_package_in_ids self) as Hin.
  unfold package_ids in Hin. simpl in Hin.
  rewrite !elem_of_cons, elem_of_nil in Hin.
  destruct Hin as [-> | [-> | [-> | [-> | [-> | []]]]]];
    eexists; (split; [reflexivity|]); split; by vm_compute.
Qed.

(** *** The order of the rows *)

Section RankFacts.

Implicit Types (d : gmap string bool) (l : list (string * bool)).

Lemma sorted_items_sorted d : StronglySorted item_le (sorted_items d).
Proof. apply StronglySorted_merge_sort; apply _. Qed.

Lemma sorted_items_NoDup d : NoDup (sorted_items d).*1.
Proof. rewrite sorted_items_perm. apply NoDup_fst_map_to_list. Qed.

Lemma elem_of_sorted_items d k b : (k, b) ∈ sorted_items d ↔ d !! k = Some b.
Proof. rewrite sorted_items_perm. apply elem_of_map_to_list. Qed.

Lemma rank_sorted_items d k :
  rank d k = length (filter (λ item : string * bool, key_lt item.1 k) (sorted_items d)).
Proof. unfold rank. by rewrite sorted_items_perm. Qed.

Lemma filter_none {A} (P : A → Prop) `{!∀ x, Decision (P x)} (l : list A) :
  Forall (λ x, ¬ P x) l → filter P l = [].
Proof.
  induction 1 as [|x l Hx _ IH]; [done|]. by rewrite filter_cons_False.
Qed.

Lemma filter_all {A} (P : A → Prop) `{!∀ x, Decision (P x)} (l : list A) :
  Forall P l → filter P l = l.
Proof.
  induction 1 as [|x l Hx _ IH]; [done|]. by rewrite filter_cons_True, IH.
Qed.

(** In a sorted list of distinct keys, an entry stands after exactly the
    entries whose keys come before its own. *)
Lemma filter_before_sorted l1 l2 k b :
  StronglySorted item_le (l1 ++ (k, b) :: l2) →
  NoDup (l1 ++ (k, b) :: l2).*1 →
  filter (λ item : string * bool, key_lt item.1 k) (l1 ++ (k, b) :: l2) = l1.
Proof.
  intros Hsorted Hnd.
  rewrite filter_app, filter_cons_False by (intros [_ Hne]; by apply Hne).
  assert (filter (λ item : string * bool, key_lt item.1 k) l2 = []) as ->.
  { apply filter_none, Forall_forall. intros [k' b'] Hin [Hle Hne].
    apply Hne. apply (anti_symm String.le); [done|].
    apply (StronglySorted_app_1_elem_of item_le (l1 ++ [(k, b)]) l2 (k, b) (k', b'));
      [by rewrite <- app_assoc | rewrite elem_of_app, list_elem_of_singleton; tauto
      | done]. }
  rewrite app_nil_r. apply filter_all, Forall_forall.
  intros [k' b'] Hin. split.
  - apply (StronglySorted_app_1_elem_of item_le l1 ((k, b) :: l2) (k', b') (k, b));
      [done | done | by left].
  - simpl. intros ->. rewrite fmap_app, fmap_cons in Hnd.
    apply NoDup_app in Hnd as (_ & Hdisj & _).
    apply (Hdisj k); [|by left].
    apply list_elem_of_fmap. by exists (k, b').
Qed.

Lemma sorted_items_lookup_rank d k b :
  d !! k = Some b → sorted_items d !! rank d k = Some (k, b).
Proof.
  intros Hk. apply elem_of_sorted_items, list_elem_of_split in Hk as (l1 & l2 & Hl).
  pose proof (sorted_items_sorted d) as Hsorted.
  pose proof (sorted_items_NoDup d) as Hnd.
  rewrite rank_sorted_items. rewrite Hl in Hsorted, Hnd |- *.
  rewrite filter_before_sorted by done.
  by rewrite lookup_app_r, Nat.sub_diag.
Qed.

Lemma rank_lt d k1 k2 :
  is_Some (d !! k1) → is_Some (d !! k2) →
  (rank d k1 < rank d k2)%nat ↔ key_lt k1 k2.
Proof.
  intros [b1 H1] [b2 H2].
  assert (∀ ka kb ba bb, d !! ka = Some ba → d !! kb = Some bb →
    (rank d ka < rank d kb)%nat → key_lt ka kb) as Hlt.
  { intros ka kb ba bb Ha Hb Hrank.
    pose proof (sorted_items_lookup_rank d ka ba Ha) as Hia.
    pose proof (sorted_items_lookup_rank d kb bb Hb) as Hib.
    split; [|intros ->; lia].
    pose proof (sorted_items_sorted d) as Hsorted.
    rewrite <- (take_drop (rank d kb) (sorted_items d)) in Hsorted.
    apply (StronglySorted_app_1_elem_of item_le _ _ (ka, ba) (kb, bb) Hsorted).
    - apply list_elem_of_lookup. exists (rank d ka). by rewrite lookup_take_lt.
    - apply list_elem_of_lookup. exists 0%nat. rewrite lookup_drop.
      by rewrite Nat.add_0_r. }
  split; [by apply (Hlt k1 k2 b1 b2)|].
  intros [Hle Hne].
  destruct (Nat.lt_trichotomy (rank d k1) (rank d k2)) as [Hr | [Hr | Hr]]; [done| |].
  - pose proof (sorted_items_lookup_rank d k1 b1 H1) as Hi1.
    pose proof (sorted_items_lookup_rank d k2 b2 H2) as Hi2.
    rewrite Hr in Hi1. rewrite Hi1 in Hi2. by injection Hi2 as -> _.
  - destruct (Hlt k2 k1 b2 b1 H2 H1 Hr) as [Hle' _].
    destruct Hne. by apply (anti_symm String.le).
Qed.

End RankFacts.

(** *** The text of a row *)

Section RowFacts.

Implicit Types (s t : string) (c : ascii).

Lemma count_char_app c s t : count_char c (s +:+ t) = (count_char c s + count_char c t)%nat.
Proof.
  induction s as [|x s IH]; [done|].
  change (String x s +:+ t) with (String x (s +:+ t)). cbn [count_char].
  rewrite IH. lia.
Qed.

Lemma upper_char_not_o c : Fmt.upper_char c ≠ "o"%char.
Proof. by destruct c as [[] [] [] [] [] [] [] []]. Qed.

Lemma count_char_upper s : count_char "o" (Fmt.upper s) = 0%nat.
Proof.
  induction s as [|x s IH]; [done|]. cbn [Fmt.upper count_char].
  rewrite bool_decide_eq_false_2 by apply upper_char_not_o. done.
Qed.

Lemma count_char_spaces n : count_char "o" (Fmt.repeat " " n) = 0%nat.
Proof. induction n as [|n IH]; [done|]. cbn [Fmt.repeat count_char]. by rewrite IH. Qed.

Lemma length_upper s : String.length (Fmt.upper s) = String.length s.
Proof. induction s as [|x s IH]; [done|]. cbn [Fmt.upper String.length]. by rewrite IH. Qed.

(** A row, piece by piece. *)
Lemma feature_row_text k b :
  feature_row (k, b) =
    "  " +:+ (if b then MARK_SUPPORTED else MARK_NOT_SUPPORTED) +:+ " "
    +:+ Fmt.upper k +:+ Fmt.repeat " " (20 - String.length k) +:+ " "
    +:+ (if b then "Supported" else "Not Supported").
Proof.
  unfold feature_row, Fmt.ljust. by rewrite length_upper, string_app_assoc.
Qed.

Lemma feature_row_ends k b :
  ends_with "Not Supported" (feature_row (k, b)) ↔ b = false.
Proof.
  rewrite feature_row_text. split.
  - intros [pre Hrow]. destruct b; [|done].
    apply (f_equal (count_char "o")) in Hrow.
    rewrite !count_char_app, count_char_upper, count_char_spaces in Hrow.
    change (count_char "o" "Not Supported") with 2%nat in Hrow.
    change (count_char "o" "Supported") with 1%nat in Hrow.
    change (count_char "o" MARK_SUPPORTED) with 0%nat in Hrow.
    change (count_char "o" "  ") with 0%nat in Hrow.
    change (count_char "o" " ") with 0%nat in Hrow.
    lia.
  - intros ->.
    exists ("  " +:+ MARK_NOT_SUPPORTED +:+ " " +:+ Fmt.upper k
            +:+ Fmt.repeat " " (20 - String.length k) +:+ " ").
    by rewrite !string_app_assoc.
Qed.

Lemma feature_row_starts k b :
  starts_with ("  " +:+ MARK_SUPPORTED) (feature_row (k, b)) ↔ b = true.
Proof.
  unfold starts_with. rewrite <- startswith_app, feature_row_text.
  destruct b; by vm_compute.
Qed.

End RowFacts.

(** X13.  The table of features.  For the empty dictionary it is the single
    line "(No features detected)".  Otherwise it has as many rows as the
    dictionary has entries, and the row of an entry stands after exactly the
    rows of the keys that come before its own in the order of strings, so
    the rows are in ascending order of the flag names.  A row is made of two
    spaces, the mark, a space, the name in capitals filled with spaces up to
    twenty characters, a space, and Supported or Not Supported; it ends with
    Not Supported exactly when the value is false and starts with the mark
    of the supported flags exactly when the value is true. *)
Theorem feature_rows_table (d : gmap string bool) :
  (d = ∅ → feature_rows d = ["  (No features detected)"]) ∧
  (d ≠ ∅ → length (feature_rows d) = size d) ∧
  (∀ (k : string) (b : bool), d !! k = Some b →
     ∃ row,
       feature_rows d !! rank d k = Some row ∧
       row = "  " +:+ (if b then MARK_SUPPORTED else MARK_NOT_SUPPORTED) +:+ " "
             +:+ Fmt.upper k +:+ Fmt.repeat " " (20 - String.length k) +:+ " "
             +:+ (if b then "Supported" else "Not Supported") ∧
       (ends_with "Not Supported" row ↔ b = false) ∧
       (starts_with ("  " +:+ MARK_SUPPORTED) row ↔ b = true)) ∧
  (∀ k1 k2 : string, is_Some (d !! k1) → is_Some (d !! k2) →
     (rank d k1 < rank d k2)%nat ↔ String.le k1 k2 ∧ k1 ≠ k2).
Proof.
  split_and!.
  - by intros ->.
  - apply feature_rows_length.
  - intros k b Hk. exists (feature_row (k, b)). split_and!.
    + rewrite feature_rows_nonempty.
      * by rewrite list_lookup_fmap, (sorted_items_lookup_rank d k b Hk).
      * intros ->. by rewrite lookup_empty in Hk.
    + apply feature_row_text.
    + apply feature_row_ends.
    + apply feature_row_starts.
  - apply rank_lt.
Qed.

Lemma feature_rows_table_witness :
  feature_rows (features detector_avx512f_only)
    !! rank (features detector_avx512f_only) "avx512f"
    = Some ("  " +:+ MARK_SUPPORTED +:+ " AVX512F              Supported").
Proof.
  destruct (proj1 (proj2 (proj2 (feature_rows_table (features detector_avx512f_only))))
              "avx512f" true eq_refl) as (row & Hrow & -> & _).
  exact Hrow.
Defined.

(** The table of the Linux probe when avx512f is all that was found. *)
Example feature_rows_ex :
  feature_rows (scan_cpuinfo "flags : fpu avx512f" linux_flags)
    = [ "  " +:+ MARK_NOT_SUPPORTED +:+ " AMX_BF16             Not Supported";
        "  " +:+ MARK_NOT_SUPPORTED +:+ " AMX_INT8             Not Supported";
        "  " +:+ MARK_NOT_SUPPORTED +:+ " AMX_TILE             Not Supported";
        "  " +:+ MARK_NOT_SUPPORTED +:+ " AVX512_BF16          Not Supported";
        "  " +:+ MARK_NOT_SUPPORTED +:+ " AVX512_VNNI          Not Supported";
        "  " +:+ MARK_SUPPORTED +:+ " AVX512F              Supported" ].
Proof. by vm_compute. Qed.

(** X14.  The table in the report of a run: six rows on Linux, four on
    Darwin and on Windows, and the line "(No features detected)" on every
    other system, whatever was detected. *)
Theorem report_table_by_system (h : Host) :
  is_returned (detect h (__init__ h)).2 = true →
  let d := features (detect h (__init__ h)).1 in
  (platform_system h = "Linux" → length (feature_rows d) = 6%nat) ∧
  (platform_system h = "Darwin" ∨ platform_system h = "Windows" →
     length (feature_rows d) = 4%nat) ∧
  (platform_system h ∉ ["Linux"; "Darwin"; "Windows"] →
     feature_rows d = ["  (No features detected)"]).
Proof.
  intros Hret d. subst d.
  assert (∀ (fs : gmap string bool) names, NoDup names → names ≠ [] →
    dom fs = list_to_set names → length (feature_rows fs) = length names) as Hrows.
  { intros fs names Hnd Hne Hdom. rewrite feature_rows_length.
    - by apply size_of_dom.
    - intros ->. rewrite dom_empty_L in Hdom. destruct names as [|k names]; [done|].
      assert (k ∈ (∅ : gset string)) as Hk; [|by apply elem_of_empty in Hk].
      rewrite Hdom. apply elem_of_list_to_set. by left. }
  assert (platform_system h ∉ ["Linux"; "Darwin"; "Windows"] ↔
    platform_system h ≠ "Linux" ∧ platform_system h ≠ "Darwin"
    ∧ platform_system h ≠ "Windows") as Hother.
  { rewrite !elem_of_cons, elem_of_nil. tauto. }
  rewrite Hother. revert Hret.
  unfold detect, bind, get_self. simpl.
  case_bool_decide as HL.
  { destruct (_detect_linux h (__init__ h)) as [self' [fs|e]] eqn:Hrun; [|done].
    intros _. apply detect_linux_dom in Hrun as [-> Hdom]. simpl.
    split_and!; [|rewrite HL; intuition discriminate|tauto].
    intros _. by rewrite (Hrows fs linux_flag_names linux_flag_names_NoDup). }
  case_bool_decide as HD.
  { destruct (_detect_macos h (__init__ h)) as [self' [fs|e]] eqn:Hrun; [|done].
    intros _. apply detect_macos_dom in Hrun as [-> Hdom]. simpl.
    split_and!; [done| |tauto].
    intros _. by rewrite (Hrows fs tier_flag_names tier_flag_names_NoDup). }
  case_bool_decide as HW.
  { intros _. simpl. split_and!; [done| |tauto].
    intros _. by rewrite (Hrows base_flags tier_flag_names tier_flag_names_NoDup
                            ltac:(done) base_flags_dom). }
  intros _. simpl. split_and!; [done|tauto|done].
Qed.

Lemma report_table_by_system_witness :
  length (feature_rows (features (detect host_linux_split (__init__ host_linux_split)).1))
    = 6%nat.
Proof.
  apply (proj1 (report_table_by_system host_linux_split eq_refl)). reflexivity.
Defined.

(** ** The probes and the letters of their sources *)

Section CaseFacts.

Lemma lower_upper_char (c : ascii) :
  Str.lower_char (Fmt.upper_char c) = Str.lower_char c.
Proof. by destruct c as [[] [] [] [] [] [] [] []]. Qed.

Lemma lower_upper (s : string) : Str.lower (Fmt.upper s) = Str.lower s.
Proof. induction s as [|c s IH]; simpl; [done|]. by rewrite lower_upper_char, IH. Qed.

(** A text that contains [p +:+ q] contains [p]. *)
Lemma contains_prefix (p q s : string) :
  (p +:+ q in_str s) = true → (p in_str s) = true.
Proof.
  rewrite !contains_app. intros (pre & suf & ->).
  exists pre, (q +:+ suf). by rewrite string_app_assoc.
Qed.

End CaseFacts.

(** X15.  Detection does not see the case of the letters in its sources:
    rewriting the text of /proc/cpuinfo and the output of lscpu and sysctl in
    any way that leaves their lowered form alone, such as putting them in
    capitals, changes neither the outcome of [detect] nor the detector it
    leaves. *)
Theorem detect_ignores_case (f : string → string) (h : Host) (self : CPUDetector) :
  (∀ text, Str.lower (f text) = Str.lower text) →
  detect (host_with_texts f h) self = detect h self.
Proof.
  intros Hf. unfold detect, bind, get_self. simpl.
  destruct (bool_decide (system self = "Linux")).
  { unfold _detect_linux, bind, try_except, call, ret, set_features. simpl.
    destruct (proc_cpuinfo h) as [text|e1], (lscpu h) as [result|e2]; simpl;
      rewrite ?Hf; by repeat destruct (bool_decide _). }
  destruct (bool_decide (system self = "Darwin"));
    [|by destruct (bool_decide (system self = "Windows"))].
  unfold _detect_macos, bind, try_except, call, ret, set_features. simpl.
  destruct (sysctl h) as [result|e]; simpl; rewrite ?Hf;
    by repeat destruct (bool_decide _).
Qed.

Lemma detect_ignores_case_witness :
  detect (host_with_texts Fmt.upper host_linux_split) (__init__ host_linux_split)
    = detect host_linux_split (__init__ host_linux_split).
Proof.
  apply (detect_ignores_case Fmt.upper host_linux_split). intros text.
  apply lower_upper.
Defined.

(** X16.  The token of the macOS probe is the common beginning of the AVX512
    tokens of the Linux probe: every lowered text in which the Linux scan
    finds avx512f, avx512_vnni or avx512_bf16 contains avx512, the one token
    that the macOS probe looks for. *)
Theorem linux_avx512_tokens_contain_macos_token (text k : string) :
  k ∈ ["avx512f"; "avx512_vnni"; "avx512_bf16"] →
  reports text k = true →
  ("avx512" in_str text) = true.
Proof.
  intros Hk. rewrite !elem_of_cons, elem_of_nil in Hk.
  destruct Hk as [-> | [-> | [-> | []]]]; rewrite_reports;
    rewrite ?orb_true_iff; intros Hrep.
  - by apply (contains_prefix "avx512" "f").
  - destruct Hrep as [Hrep|Hrep];
      [by apply (contains_prefix "avx512" "_vnni")
      |by apply (contains_prefix "avx512" "vnni")].
  - destruct Hrep as [Hrep|Hrep];
      [by apply (contains_prefix "avx512" "_bf16")
      |by apply (contains_prefix "avx512" "bf16")].
Qed.

Lemma linux_avx512_tokens_contain_macos_token_witness :
  ("avx512" in_str "flags : fpu avx512vnni") = true.
Proof.
  apply (linux_avx512_tokens_contain_macos_token _ "avx512_vnni").
  - rewrite !elem_of_cons. tauto.
  - reflexivity.
Defined.
